(** * mygeotab/api.py: the call / authenticate / retry contract

    A shallow embedding of [mygeotab/api.py]: the [API] client, its
    [Credentials] objects and the two exception classes, over a model of the
    Python values that travel through it (decoded JSON), the object store that
    holds the [Credentials] instances, and a scripted HTTP transport. *)

From Stdlib Require Import ZArith Bool.
From stdpp Require Import gmap strings list fin_maps.

Set Warnings "-register-all".
Open Scope string_scope.

(** ** Python values

    Everything the client touches is either a decoded JSON document or a
    value that [json.dumps] serialises: [None], booleans, integers, strings,
    lists and string-keyed dicts.  Floats behave like integers in every
    operation the module performs on them (truthiness and the failing
    [in] / subscript), so numbers are integers here. *)

Inductive json : Type :=
  | JNull
  | JBool (b : bool)
  | JNum (n : Z)
  | JStr (s : string)
  | JList (l : list json)
  | JObj (m : gmap string json).

(** Python's [bool(v)]. *)
Definition truthy (v : json) : bool :=
  match v with
  | JNull => false
  | JBool b => b
  | JNum n => negb (n =? 0)%Z
  | JStr s => negb (String.eqb s "")
  | JList l => match l with [] => false | _ => true end
  | JObj m => match map_to_list m with [] => false | _ => true end
  end.

(** [v is None] *)
Definition is_None (v : json) : bool :=
  match v with JNull => true | _ => false end.

(** [v == s] for a string literal [s]. *)
Definition eq_str (v : json) (s : string) : bool :=
  match v with JStr t => String.eqb t s | _ => false end.

(** [p in s] on two strings: [p] occurs in [s] as a contiguous substring. *)
Fixpoint str_startswith (p s : string) : bool :=
  match p, s with
  | EmptyString, _ => true
  | String a p', String b s' => Ascii.eqb a b && str_startswith p' s'
  | String _ _, EmptyString => false
  end.

Fixpoint str_contains (p s : string) : bool :=
  str_startswith p s ||
  match s with
  | EmptyString => false
  | String _ s' => str_contains p s'
  end.

(** ** Exceptions *)

Inductive exn : Type :=
  | Exception (msg : string)
  | MyGeotabException (full_error name message stack_trace : json)
  | AuthenticationException (username database server : json)
  | TypeError
  | KeyError (key : string)
  | IndexError
  | AttributeError
  | RecursionError
  | TransportError.

Inductive result (A : Type) : Type :=
  | Return (a : A)
  | Raise (e : exn).
Arguments Return {A} a.
Arguments Raise {A} e.

(** ** Objects and the world *)

(** References into the object store. *)
Abbreviation loc := nat (only parsing).

(** [class Credentials]: a plain attribute holder. *)
Record Credentials : Type := mkCredentials {
  username : json;
  session_id : json;
  database : json;
  server : json;
  password : json
}.

(** [Credentials.__init__(username, session_id, database, server, password=None)] *)
Definition Credentials_init (username session_id database server : json)
    (password : option json) : Credentials :=
  mkCredentials username session_id database server (default JNull password).

(** [Credentials.get_param] *)
Definition get_param (c : Credentials) : json :=
  JObj {[ "userName" := username c; "sessionId" := session_id c;
          "database" := database c ]}.

(** The attributes of an [API] instance.  [credentials] is a reference to a
    [Credentials] object in the store; [_reauthorize_count] starts from the
    class attribute, 0. *)
Record API : Type := mkAPI {
  credentials : option loc;
  _reauthorize_count : nat
}.

(** What [requests.post] is called with. *)
Record Request : Type := mkRequest {
  url : string;
  data : json;
  headers : list (string * string);
  allow_redirects : bool;
  verify : bool
}.

(** The world: the client object, the store of [Credentials] objects, the
    scripted transport (what the next [requests.post(...).json()] gives;
    [None], or an exhausted script, is a transport failure) and the log of
    the requests issued so far. *)
Record World : Type := mkWorld {
  self : API;
  heap : list Credentials;
  responses : list (option json);
  sent : list Request
}.

Definition set_self (a : API) (w : World) : World :=
  mkWorld a (heap w) (responses w) (sent w).
Definition set_heap (h : list Credentials) (w : World) : World :=
  mkWorld (self w) h (responses w) (sent w).
Definition set_responses (r : list (option json)) (w : World) : World :=
  mkWorld (self w) (heap w) r (sent w).
Definition set_sent (s : list Request) (w : World) : World :=
  mkWorld (self w) (heap w) (responses w) s.

(** ** The state and exception monad *)

Definition M (A : Type) : Type := World -> result A * World.

Definition ret {A} (a : A) : M A := fun w => (Return a, w).
Definition raise {A} (e : exn) : M A := fun w => (Raise e, w).
Definition bind {A B} (m : M A) (k : A -> M B) : M B :=
  fun w => match m w with
           | (Return a, w') => k a w'
           | (Raise e, w') => (Raise e, w')
           end.
Definition lift {A} (r : result A) : M A := fun w => (r, w).

#[global] Instance M_ret : MRet M := @ret.
#[global] Instance M_bind : MBind M := fun A B k m => bind m k.

(** [try: m  except MyGeotabException as exception: h exception]; any other
    exception passes through. *)
Definition try_except_MyGeotabException {A} (m : M A)
    (h : json -> json -> json -> json -> M A) : M A :=
  fun w => match m w with
           | (Raise (MyGeotabException f n msg st), w') => h f n msg st w'
           | r => r
           end.

Definition when (b : bool) (m : M unit) : M unit := if b then m else ret tt.

(** ** Python operations on decoded values *)

(** [k in v] for a string [k]: key membership on a dict, element membership
    on a list, substring on a string; the other values are not iterable. *)
Definition py_in (k : string) (v : json) : result bool :=
  match v with
  | JObj m => Return (bool_decide (is_Some (m !! k)))
  | JList l => Return (existsb (fun x => eq_str x k) l)
  | JStr s => Return (str_contains k s)
  | JNull | JBool _ | JNum _ => Raise TypeError
  end.

(** [v[k]] for a string [k]. *)
Definition getitem (v : json) (k : string) : result json :=
  match v with
  | JObj m => match m !! k with Some x => Return x | None => Raise (KeyError k) end
  | _ => Raise TypeError
  end.

(** [v[0]].  A decoded dict has string keys only, so [0] is never one. *)
Definition getitem0 (v : json) : result json :=
  match v with
  | JList (x :: _) => Return x
  | JList [] => Raise IndexError
  | JStr (String a _) => Return (JStr (String a EmptyString))
  | JStr EmptyString => Raise IndexError
  | JObj _ => Raise (KeyError "0")
  | JNull | JBool _ | JNum _ => Raise TypeError
  end.

Definition rbind {A B} (r : result A) (k : A -> result B) : result B :=
  match r with Return a => k a | Raise e => Raise e end.

(** [MyGeotabException.__init__(full_error)]: the exception object, unless
    reading the nested record fails. *)
Definition MyGeotabException_init (full_error : json) : result exn :=
  rbind (getitem full_error "errors") (fun errors =>
  rbind (getitem0 errors) (fun main_error =>
  rbind (getitem main_error "name") (fun name =>
  rbind (getitem main_error "message") (fun message =>
  rbind (getitem main_error "stackTrace") (fun stack_trace =>
  Return (MyGeotabException full_error name message stack_trace)))))).

(** ** Store and transport primitives *)

(** [self.credentials.<attr>]: the referenced object; [None] has no
    attributes. *)
Definition the_credentials : M (loc * Credentials) := fun w =>
  match credentials (self w) with
  | Some l => match heap w !! l with
              | Some c => (Return (l, c), w)
              | None => (Raise AttributeError, w)
              end
  | None => (Raise AttributeError, w)
  end.

(** [self.credentials.server = v]: an attribute store into the referenced
    object. *)
Definition store_server (l : loc) (v : json) : M unit := fun w =>
  match heap w !! l with
  | Some c =>
      (Return tt,
       set_heap (<[l := mkCredentials (username c) (session_id c) (database c) v (password c)]>
                   (heap w)) w)
  | None => (Raise AttributeError, w)
  end.

(** [self.credentials = Credentials(...)]: a new object, and the attribute
    rebound to it. *)
Definition install_credentials (c : Credentials) : M loc := fun w =>
  let l := length (heap w) in
  (Return l,
   set_self (mkAPI (Some l) (_reauthorize_count (self w))) (set_heap (heap w ++ [c]) w)).

Definition get_reauthorize_count : M nat := fun w =>
  (Return (_reauthorize_count (self w)), w).
Definition set_reauthorize_count (n : nat) : M unit := fun w =>
  (Return tt, set_self (mkAPI (credentials (self w)) n) w).

(** [requests.post(url, data=json.dumps(params), ...).json()] *)
Definition post (r : Request) : M json := fun w =>
  let w' := set_sent (sent w ++ [r]) w in
  match responses w with
  | Some body :: rest => (Return body, set_responses rest w')
  | None :: rest => (Raise TransportError, set_responses rest w')
  | [] => (Raise TransportError, w')
  end.

(** ** class API *)

(** The two fields of [urlparse]'s result that the module reads. *)
Record ParseResult : Type := mkParseResult {
  netloc : string;
  path : string
}.

Section API.

(** [urllib.parse.urlparse] on a string; the client is verified against any
  behaviour of it. *)
Variable urlparse : string -> result ParseResult.

(** [API.__init__] *)
Definition __init__ (username password database session_id server : json) : M unit :=
if is_None username then raise (Exception "`username` cannot be None")
else if is_None password && is_None session_id
then raise (Exception "`password` and `session_id` must not both be None")
else fun w =>
  let l := length (heap w) in
  (Return tt,
   set_self (mkAPI (Some l) 0)
     (set_heap (heap w ++ [Credentials_init username session_id database server (Some password)]) w)).

(** [API._get_api_url] *)
Definition _get_api_url : M string :=
'(l, c) ← the_credentials;
when (negb (truthy (server c))) (store_server l (JStr "my.geotab.com"));;
'(_, c) ← the_credentials;
match server c with
| JStr s =>
    parsed ← lift (urlparse s);
    let base_url := if negb (String.eqb (netloc parsed) "")
                    then netloc parsed else path parsed in
    ret ("https://" +:+ base_url +:+ "/apiv1")
| _ => raise AttributeError
end.

(** [API._query] *)
Definition _query (method : json) (parameters : gmap string json) : M json :=
let params := JObj {[ "id" := JNum (-1); "method" := method;
                      "params" := JObj parameters ]} in
let headers := [("Content-type", "application/json; charset=UTF-8")] in
url ← _get_api_url;
let is_live := negb (existsb (fun s => str_contains s url) ["127.0.0.1"; "localhost"]) in
data ← post (mkRequest url params headers true is_live);
if truthy data then
  has_error ← lift (py_in "error" data);
  if (has_error : bool) then
    full_error ← lift (getitem data "error");
    exception ← lift (MyGeotabException_init full_error);
    raise exception
  else
    has_result ← lift (py_in "result" data);
    if (has_result : bool) then lift (getitem data "result") else ret data
else ret JNull.

(** [API.authenticate]; it returns the new [Credentials] reference, or
  [None] when the server sent nothing. *)
Definition authenticate : M (option loc) :=
'(_, c) ← the_credentials;
let auth_data : gmap string json :=
  <["global" := JBool true]>
    {[ "database" := database c; "userName" := username c;
       "password" := password c ]} in
try_except_MyGeotabException
  (result ← _query (JStr "Authenticate") auth_data;
   if truthy result then
     new_server ← lift (getitem result "path");
     '(_, c) ← the_credentials;
     let server := if negb (eq_str new_server "ThisServer")
                   then new_server else server c in
     c ← lift (getitem result "credentials");
     userName ← lift (getitem c "userName");
     sessionId ← lift (getitem c "sessionId");
     database ← lift (getitem c "database");
     l ← install_credentials (Credentials_init userName sessionId database server None);
     ret (Some l)
   else ret None)
  (fun full_error name message stack_trace =>
     if eq_str name "InvalidUserException" then
       '(_, c) ← the_credentials;
       raise (AuthenticationException (username c) (database c) (server c))
     else raise (MyGeotabException full_error name message stack_trace)).

(** [API.call(method, type_name=None, **parameters)].  The recursion of the
  retry is bounded by [depth], the interpreter's recursion limit; two
  frames are all it ever needs ([call_depth] below). *)
Fixpoint call (depth : nat) (method type_name : json)
  (parameters : gmap string json) : M json :=
match depth with
| O => raise RecursionError
| S depth' =>
    if is_None method then raise (Exception "Must specify a method name") else
    let parameters :=
      if truthy type_name then <["typeName" := type_name]> parameters
      else parameters in
    self_credentials ← (fun w => (Return (credentials (self w)), w));
    when (bool_decide (self_credentials = None)) (authenticate;; ret tt);;
    '(_, c) ← the_credentials;
    let parameters :=
      if negb (bool_decide (is_Some (parameters !! "credentials")))
         && truthy (session_id c)
      then <["credentials" := get_param c]> parameters
      else parameters in
    try_except_MyGeotabException
      (result ← _query method parameters;
       if negb (is_None result) then
         set_reauthorize_count 0;; ret result
       else ret JNull)
      (fun full_error name message stack_trace =>
         count ← get_reauthorize_count;
         if eq_str name "InvalidUserException" && (count =? 0)%nat then
           set_reauthorize_count (count + 1);;
           authenticate;;
           call depth' method (JObj parameters) ∅
         else raise (MyGeotabException full_error name message stack_trace))
end.

(** [API.multi_call]: the positional arguments [calls] are 2-tuples. *)
Definition multi_call (depth : nat) (calls : list (json * json)) : M json :=
let formatted_calls :=
  map (fun call => JObj {[ "method" := call.1; "params" := call.2 ]}) calls in
call depth (JStr "ExecuteMultiCall") JNull {[ "calls" := JList formatted_calls ]}.

(** [API.get], [API.add], [API.set], [API.remove] *)
Definition get (depth : nat) (type_name : json) (parameters : gmap string json) : M json :=
call depth (JStr "Get") type_name parameters.
Definition add (depth : nat) (type_name entity : json) : M json :=
call depth (JStr "Add") type_name {[ "entity" := entity ]}.
Definition set (depth : nat) (type_name entity : json) : M json :=
call depth (JStr "Set") type_name {[ "entity" := entity ]}.
Definition remove (depth : nat) (type_name entity : json) : M json :=
call depth (JStr "Remove") type_name {[ "entity" := entity ]}.

End API.

(** ** Running the embedding *)

(** [urlparse] on a bare host name (no scheme, [/], [?], [#] or [;]): no
    network location, the whole string is the path. *)
Definition urlparse_bare (s : string) : result ParseResult :=
  Return (mkParseResult "" s).

Definition error_record (name message stack_trace : string) : json :=
  JObj {[ "errors" :=
    JList [JObj {[ "name" := JStr name; "message" := JStr message;
                   "stackTrace" := JStr stack_trace ]}] ]}.

Definition error_response (name message stack_trace : string) : json :=
  JObj {[ "error" := error_record name message stack_trace ]}.

Definition authenticate_response (path user session db : string) : json :=
  JObj {[ "result" := JObj {[ "path" := JStr path; "credentials" :=
    JObj {[ "userName" := JStr user; "sessionId" := JStr session;
            "database" := JStr db ]} ]} ]}.

(** A fresh interpreter with a scripted transport. *)
Definition boot (script : list (option json)) : World :=
  mkWorld (mkAPI None 0) [] script [].

Definition request_method (r : Request) : result json := getitem (data r) "method".
Definition request_params (r : Request) : result json := getitem (data r) "params".


(** A relation between the world before and the world after, kept by every
    step of a computation. *)
Definition preserves {A} (R : relation World) (m : M A) : Prop :=
  forall w, R w (m w).2.

(** The client attributes, the transport and the number of stored objects
    stay as they are. *)
Definition same_transport (w w' : World) : Prop :=
  self w' = self w /\ responses w' = responses w /\ sent w' = sent w /\
  length (heap w') = length (heap w).

(** A client as [API(username, password, database, session_id, server)]
    builds it in a fresh interpreter. *)
Definition client (username password database session_id server : json)
    (script : list (option json)) : World :=
  (__init__ username password database session_id server (boot script)).2.

(** A client that already holds a session. *)
Definition session_client (server : json) (script : list (option json)) : World :=
  client (JStr "user@example.com") JNull (JStr "db") (JStr "s1") server script.

(** A client that has a password and no session yet. *)
Definition password_client (server : json) (script : list (option json)) : World :=
  client (JStr "user@example.com") (JStr "secret") (JStr "db") JNull server script.

(** [API(...)] raised the construction error. *)
Definition is_construction_error (r : result unit * World) : bool :=
  match r.1 with
  | Raise (Exception _) => true
  | _ => false
  end.

(** ** Vocabulary of the properties *)

(** What [call] hands to [_query]: [typeName] merged in when a type name is
    given, then the session credentials attached unless the caller passed
    [credentials] or there is no session token. *)
Definition merge_type_name (type_name : json) (parameters : gmap string json)
    : gmap string json :=
  if truthy type_name then <["typeName" := type_name]> parameters else parameters.

Definition attach_credentials (c : Credentials) (parameters : gmap string json)
    : gmap string json :=
  if negb (bool_decide (is_Some (parameters !! "credentials")))
     && truthy (session_id c)
  then <["credentials" := get_param c]> parameters
  else parameters.

Definition sent_parameters (c : Credentials) (type_name : json)
    (parameters : gmap string json) : gmap string json :=
  attach_credentials c (merge_type_name type_name parameters).

(** The request [_query] posts to [url]. *)
Definition rpc_request (url : string) (method : json)
    (parameters : gmap string json) : Request :=
  mkRequest url
    (JObj {[ "id" := JNum (-1); "method" := method; "params" := JObj parameters ]})
    [("Content-type", "application/json; charset=UTF-8")] true
    (negb (existsb (fun s => str_contains s url) ["127.0.0.1"; "localhost"])).

(** The client holds a reference to a stored [Credentials] object. *)
Definition holds (w : World) (l : loc) (c : Credentials) : Prop :=
  credentials (self w) = Some l /\ heap w !! l = Some c.

(** A stored object as it may be found later: every attribute as it was,
    except that a falsy [server] may have become the default host. *)
Definition kept (c c' : Credentials) : Prop :=
  username c' = username c /\ session_id c' = session_id c /\
  database c' = database c /\ password c' = password c /\
  (server c' = server c \/
   (truthy (server c) = false /\ server c' = JStr "my.geotab.com")).

(** The effect of a query on the client: attributes untouched, no object
    created, stored objects [kept]. *)
Definition query_frame (w w' : World) : Prop :=
  self w' = self w /\ length (heap w') = length (heap w) /\
  forall l c, heap w !! l = Some c -> exists c', heap w' !! l = Some c' /\ kept c c'.

(** The effect of any operation on the store: stored objects [kept], and the
    client's reference either unchanged or bound to an object created
    since. *)
Definition evolves (w w' : World) : Prop :=
  length (heap w) <= length (heap w') /\
  (forall l c, heap w !! l = Some c -> exists c', heap w' !! l = Some c' /\ kept c c') /\
  (credentials (self w') = credentials (self w) \/
   exists l, credentials (self w') = Some l /\ length (heap w) <= l /\
             is_Some (heap w' !! l)).

(** The counter is left alone. *)
Definition same_count (w w' : World) : Prop :=
  _reauthorize_count (self w') = _reauthorize_count (self w).

(** Requests are only ever added to the log. *)
Definition log_grows (w w' : World) : Prop :=
  exists more, sent w' = (sent w ++ more)%list.

(** The public operations of a client, and the states a client can be in:
    built by the constructor, then driven by any operations against any
    transport. *)
Inductive Op : Type :=
  | op_call (method type_name : json) (parameters : gmap string json)
  | op_multi_call (calls : list (json * json))
  | op_get (type_name : json) (parameters : gmap string json)
  | op_add (type_name entity : json)
  | op_set (type_name entity : json)
  | op_remove (type_name entity : json)
  | op_authenticate.

Definition run (urlparse : string -> result ParseResult) (depth : nat) (o : Op)
    : M json :=
  match o with
  | op_call method type_name parameters =>
      call urlparse depth method type_name parameters
  | op_multi_call calls => multi_call urlparse depth calls
  | op_get type_name parameters => get urlparse depth type_name parameters
  | op_add type_name entity => add urlparse depth type_name entity
  | op_set type_name entity => set urlparse depth type_name entity
  | op_remove type_name entity => remove urlparse depth type_name entity
  | op_authenticate => authenticate urlparse ≫= fun _ => mret JNull
  end.

Inductive reachable (urlparse : string -> result ParseResult) : World -> Prop :=
  | reachable_init username password database session_id server w0 w :
      __init__ username password database session_id server w0 = (Return tt, w) ->
      reachable urlparse w
  | reachable_run depth o w :
      reachable urlparse w -> reachable urlparse (run urlparse depth o w).2
  | reachable_transport script w :
      reachable urlparse w -> reachable urlparse (set_responses script w).

(** The session has expired and the server keeps saying so: the first
    response and the one after the login are both [InvalidUserException]. *)
Definition expired_twice : World :=
  session_client (JStr "my.geotab.com")
    [Some (error_response "InvalidUserException" "m" "s");
     Some (authenticate_response "ThisServer" "user@example.com" "s2" "db");
     Some (error_response "InvalidUserException" "m" "s")].

(** A counter within its bound stays within it. *)
Definition count_bounded (w w' : World) : Prop :=
  _reauthorize_count (self w) <= 1 -> _reauthorize_count (self w') <= 1.

(** The session has expired once; after the login the server accepts the
    retried [Set] and answers it with a null result. *)
Definition expired_then_null : World :=
  password_client (JStr "my.geotab.com")
    [Some (error_response "InvalidUserException" "m" "s");
     Some (authenticate_response "ThisServer" "user@example.com" "s2" "db");
     Some (JObj {[ "result" := JNull ]})].

(** The same, with a result that is not null. *)
Definition expired_then_ok : World :=
  password_client (JStr "my.geotab.com")
    [Some (error_response "InvalidUserException" "m" "s");
     Some (authenticate_response "ThisServer" "user@example.com" "s2" "db");
     Some (JObj {[ "result" := JObj {[ "id" := JStr "b123" ]} ]})].

(** [multi_call]'s [formatted_calls]. *)
Definition formatted_calls (calls : list (json * json)) : list json :=
  map (fun call => JObj {[ "method" := call.1; "params" := call.2 ]}) calls.

(** One response, a result that is not null. *)
Definition answered (w : list (option json) -> World) : World :=
  w [Some (JObj {[ "result" := JObj {[ "id" := JStr "b123" ]} ]})].

(** The two calls of the multi-call example:
    [("Get", dict(typeName='Trip')), ("Get", dict(typeName='Device'))]. *)
Definition two_gets : list (json * json) :=
  [(JStr "Get", JObj {[ "typeName" := JStr "Trip" ]});
   (JStr "Get", JObj {[ "typeName" := JStr "Device" ]})].

(** The credentials object that [session_client] and [password_client]
    construct. *)
Definition session_credentials (server : json) : Credentials :=
  mkCredentials (JStr "user@example.com") (JStr "s1") (JStr "db") server JNull.
Definition password_credentials (server : json) : Credentials :=
  mkCredentials (JStr "user@example.com") JNull (JStr "db") server (JStr "secret").

(** The session has expired once; after the login the retry is answered. *)
Definition expired_session : World :=
  session_client (JStr "my.geotab.com")
    [Some (error_response "InvalidUserException" "m" "s");
     Some (authenticate_response "ThisServer" "user@example.com" "s2" "db");
     Some (JObj {[ "result" := JList [JObj {[ "id" := JStr "b123" ]}] ]})].

(** What [call('Get', 'Device', search=dict(id='b123'))] sends first from
    [expired_session]. *)
Definition first_parameters : gmap string json :=
  {[ "typeName" := JStr "Device";
     "search" := JObj {[ "id" := JStr "b123" ]};
     "credentials" := JObj {[ "userName" := JStr "user@example.com";
                              "sessionId" := JStr "s1";
                              "database" := JStr "db" ]} ]}.

(** [authenticate]'s payload for the credentials [c]. *)
Definition auth_data (c : Credentials) : gmap string json :=
  <["global" := JBool true]>
    {[ "database" := database c; "userName" := username c;
       "password" := password c ]}.

(** A client whose [credentials] attribute was set to [None] by its user. *)
Definition without_credentials (w : World) : World :=
  set_self (mkAPI None (_reauthorize_count (self w))) w.

(** The transport fails on the next request. *)
Definition transport_down (w : World) : Prop :=
  responses w = [] \/ exists rest, responses w = None :: rest.

(** A login that the server refuses, and one that it answers with nothing. *)
Definition refused_login : World :=
  password_client (JStr "my.geotab.com")
    [Some (error_response "InvalidUserException" "m" "s")].

Definition unanswered_login : World :=
  password_client (JStr "my.geotab.com") [Some (JObj ∅)].

(** A login that the server accepts, moving the client to another host. *)
Definition accepted_login : World :=
  password_client (JStr "my.geotab.com")
    [Some (authenticate_response "my3.geotab.com" "user@example.com" "s2" "db")].

(** [API.from_credentials(credentials)]: a new client from the attributes of
    an existing [Credentials] object; [None] has no attributes. *)
Definition from_credentials (credentials : option loc) : M unit := fun w =>
  match credentials with
  | Some l =>
      match heap w !! l with
      | Some c =>
          __init__ (username c) (password c) (database c) (session_id c)
            (server c) w
      | None => (Raise AttributeError, w)
      end
  | None => (Raise AttributeError, w)
  end.

(** A request as the client makes them: a POST envelope for some method and
    parameters, to an [https] URL ending in [/apiv1]. *)
Definition well_formed_request (r : Request) : Prop :=
  exists host method parameters,
    r = rpc_request ("https://" +:+ host +:+ "/apiv1") method parameters.

(** The log grows by well-formed requests only. *)
Definition sends_well_formed (w w' : World) : Prop :=
  exists more, sent w' = (sent w ++ more)%list /\ Forall well_formed_request more.

(** The re-login is refused too. *)
Definition expired_and_refused : World :=
  session_client (JStr "my.geotab.com")
    [Some (error_response "InvalidUserException" "m" "s");
     Some (error_response "InvalidUserException" "m" "s")].

(** * Properties *)

(** ** Reasoning about the monad *)

Ltac unfold_M :=
  unfold mbind, M_bind, mret, M_ret, bind, ret, raise, lift, when,
    try_except_MyGeotabException in *.

(** [m w] split into its result and its final world. *)
Lemma run_eta {A} (m : M A) (w : World) : m w = ((m w).1, (m w).2).
Proof. by destruct (m w). Qed.


Section Preserves.
Context (R : relation World) `{!PreOrder R}.

Lemma preserves_ret {A} (a : A) : preserves R (mret a).
Proof. intros w. simpl. reflexivity. Qed.

Lemma preserves_raise {A} (e : exn) : preserves R (@raise A e).
Proof. intros w. simpl. reflexivity. Qed.

Lemma preserves_lift {A} (r : result A) : preserves R (lift r).
Proof. intros w. simpl. reflexivity. Qed.

Lemma preserves_bind {A B} (m : M A) (k : A -> M B) :
  preserves R m -> (forall a, preserves R (k a)) -> preserves R (m ≫= k).
Proof.
  intros Hm Hk w. unfold_M. specialize (Hm w).
  destruct (m w) as [[a|e] w1]; simpl in *; [|done].
  etrans; [exact Hm | apply Hk].
Qed.

(** The same for one run, with the first step's outcome at hand. *)
Lemma step_bind {A B} (m : M A) (k : A -> M B) w :
  R w (m w).2 ->
  (forall a w1, m w = (Return a, w1) -> R w1 (k a w1).2) ->
  R w ((m ≫= k) w).2.
Proof.
  intros Hm Hk. unfold_M.
  destruct (m w) as [[a|e] w1]; simpl in *; [|done].
  etrans; [exact Hm | by apply Hk].
Qed.

Lemma preserves_try {A} (m : M A) (h : json -> json -> json -> json -> M A) :
  preserves R m -> (forall f n msg st, preserves R (h f n msg st)) ->
  preserves R (try_except_MyGeotabException m h).
Proof.
  intros Hm Hh w. unfold_M. specialize (Hm w).
  destruct (m w) as [[a|e] w1]; simpl in *; [done|].
  destruct e; simpl; try done.
  etrans; [exact Hm | apply Hh].
Qed.

Lemma preserves_when (b : bool) (m : M unit) :
  preserves R m -> preserves R (when b m).
Proof. intros Hm. destruct b; [done | apply preserves_ret]. Qed.

Lemma preserves_the_credentials : preserves R the_credentials.
Proof.
  intros w. unfold the_credentials.
  destruct (credentials (self w)) as [l|]; [|reflexivity].
  destruct (heap w !! l); reflexivity.
Qed.

Lemma preserves_get_reauthorize_count : preserves R get_reauthorize_count.
Proof. intros w. reflexivity. Qed.
End Preserves.

Ltac preserves_step :=
  first
    [ assumption
    | match goal with |- PreOrder _ => apply _ end
    | apply preserves_ret | apply preserves_raise | apply preserves_lift
    | apply preserves_the_credentials | apply preserves_get_reauthorize_count
    | apply preserves_when
    | apply preserves_bind; try (solve [apply _]); [|intros ?]
    | apply preserves_try; try (solve [apply _]); [|intros ? ? ? ?]
    | match goal with
      | H : forall _, preserves _ _ |- _ => apply H
      | H : forall _ _, preserves _ _ |- _ => apply H
      | |- preserves _ (match ?x with _ => _ end) => destruct x
      end ].
Ltac preserves_tac := repeat preserves_step.

Ltac pbind := apply preserves_bind; try (solve [apply _]).
Ltac ptry := apply preserves_try; try (solve [apply _]).

(** Whatever the primitive effects keep, the client's operations keep. *)
Section PreservesUrl.
Context (urlparse : string -> result ParseResult).
Context (R : relation World) `{!PreOrder R}.
Hypothesis preserves_store_server : forall l v, preserves R (store_server l v).

Lemma preserves_get_api_url : preserves R (_get_api_url urlparse).
Proof using All. unfold _get_api_url. preserves_tac. Qed.
End PreservesUrl.

Section PreservesAPI.
Context (urlparse : string -> result ParseResult).
Context (R : relation World) `{!PreOrder R}.
Hypothesis preserves_url : preserves R (_get_api_url urlparse).
Hypothesis preserves_install_credentials :
  forall c, preserves R (install_credentials c).
Hypothesis preserves_post : forall r, preserves R (post r).

Lemma preserves_query method parameters :
  preserves R (_query urlparse method parameters).
Proof using PreOrder0 preserves_url preserves_post.
  unfold _query. pbind; [apply preserves_url|intros u].
  preserves_tac.
Qed.

Lemma preserves_authenticate : preserves R (authenticate urlparse).
Proof using PreOrder0 preserves_url preserves_post
  preserves_install_credentials.
  unfold authenticate. pbind; [preserves_tac|intros [l c]].
  ptry.
  - pbind; [apply preserves_query|intros r]. preserves_tac.
  - intros. preserves_tac.
Qed.

Hypothesis preserves_set_reauthorize_count :
  forall n, preserves R (set_reauthorize_count n).

Lemma preserves_call depth method type_name parameters :
  preserves R (call urlparse depth method type_name parameters).
Proof using All.
  revert method type_name parameters.
  induction depth as [|depth IH]; intros method type_name parameters; simpl.
  { preserves_tac. }
  destruct (is_None method); [preserves_tac|].
  pbind; [intros w; reflexivity|intros oc].
  pbind.
  { apply preserves_when; [apply _|]. pbind; [apply preserves_authenticate|].
    intros. preserves_tac. }
  intros _. pbind; [preserves_tac|intros [l c]].
  ptry.
  - pbind; [apply preserves_query|intros r]. preserves_tac.
  - intros f nm msg st. pbind; [preserves_tac|intros k].
    destruct (_ && _); [|preserves_tac].
    pbind; [done|intros _].
    pbind; [apply preserves_authenticate|intros _]. apply IH.
Qed.
End PreservesAPI.

(** ** What the URL computation may touch *)


#[global] Instance same_transport_preorder : PreOrder same_transport.
Proof.
  split.
  - intros w. by repeat split.
  - intros w1 w2 w3 (?&?&?&?) (?&?&?&?). repeat split; congruence.
Qed.

Lemma store_server_same_transport l v : preserves same_transport (store_server l v).
Proof.
  intros w. unfold store_server. destruct (heap w !! l); simpl; [|reflexivity].
  repeat split; simpl. by rewrite length_insert.
Qed.

Section Url.
Context (urlparse : string -> result ParseResult).

Lemma get_api_url_same_transport w :
  same_transport w (_get_api_url urlparse w).2.
Proof. apply preserves_get_api_url; [apply _|apply store_server_same_transport]. Qed.

(** Every URL the client builds is [https://<host>/apiv1]. *)
Lemma get_api_url_shape w u w1 :
  _get_api_url urlparse w = (Return u, w1) ->
  exists host, u = "https://" +:+ host +:+ "/apiv1".
Proof.
  unfold _get_api_url. unfold_M. intros H.
  destruct (the_credentials w) as [[[l c]|e] w2]; [|done].
  destruct (if negb (truthy (server c)) then _ else _) as [[[]|e] w3]; [|done].
  destruct (the_credentials w3) as [[[l' c']|e] w4]; [|done].
  destruct (server c'); try done.
  destruct (urlparse s) as [p|e]; [|done].
  inversion H; subst. eauto.
Qed.

(** [_query] is: build the URL, post one request, read the body. *)
Lemma query_unfold method parameters w u w1 :
  _get_api_url urlparse w = (Return u, w1) ->
  let r := mkRequest u
             (JObj {[ "id" := JNum (-1); "method" := method;
                      "params" := JObj parameters ]})
             [("Content-type", "application/json; charset=UTF-8")] true
             (negb (existsb (fun s => str_contains s u) ["127.0.0.1"; "localhost"])) in
  sent (_query urlparse method parameters w).2 = (sent w ++ [r])%list.
Proof.
  intros H r. pose proof (get_api_url_same_transport w) as (Hself&Hresp&Hsent&Hlen).
  rewrite H in Hself, Hresp, Hsent, Hlen. simpl in *.
  unfold _query. unfold_M. rewrite H. unfold post. fold r.
  rewrite <- Hsent.
  destruct (responses w1) as [|[body|] rest]; simpl; try done.
  repeat (case_match; simpl; try done).
Qed.
End Url.

(** ** Substrings of [https://<host>/apiv1] *)





(** ** Construction *)

(** C7 (as amended): constructing a client fails with the construction error
    exactly when the username is [None], or the password and the session
    token are both [None]; the password does not matter for a [None]
    username, and the failed construction leaves the world as it was. *)
Theorem init_fails_iff_None username password database session_id server w :
  is_construction_error (__init__ username password database session_id server w)
    = is_None username || (is_None password && is_None session_id)
  /\ (is_None username || (is_None password && is_None session_id) = true ->
      (__init__ username password database session_id server w).2 = w).
Proof.
  unfold __init__, is_construction_error.
  destruct (is_None username); [done|].
  destruct (is_None password && is_None session_id); done.
Qed.

Lemma init_fails_iff_None_witness :
  is_None JNull || (is_None (JStr "secret") && is_None JNull) = true /\
  (__init__ JNull (JStr "secret") JNull JNull (JStr "my.geotab.com") (boot [])).2 = boot [].
Proof.
  split; [reflexivity|].
  apply (init_fails_iff_None JNull (JStr "secret") JNull JNull (JStr "my.geotab.com")).
  reflexivity.
Defined.

(** C7, the claim as stated fails: an empty username, with a password or
    without one (a session token in its place), constructs a client. *)
Lemma init_accepts_empty_username :
  (__init__ (JStr "") (JStr "secret") JNull JNull (JStr "my.geotab.com") (boot [])).1
    = Return tt /\
  (__init__ (JStr "") JNull JNull (JStr "s1") (JStr "my.geotab.com") (boot [])).1
    = Return tt.
Proof. split; reflexivity. Qed.

(** ** Reading the response *)

Section Query.
Context (urlparse : string -> result ParseResult).



End Query.





(** ** Frames of the primitive effects *)

Lemma the_credentials_inv w l c w1 :
  the_credentials w = (Return (l, c), w1) ->
  w1 = w /\ holds w l c.
Proof.
  unfold the_credentials, holds.
  destruct (credentials (self w)) as [l'|]; [|done].
  destruct (heap w !! l') as [c'|] eqn:Hl; [|done].
  intros H. by inversion H; subst.
Qed.

Lemma the_credentials_holds w l c :
  holds w l c -> the_credentials w = (Return (l, c), w).
Proof. intros [H1 H2]. unfold the_credentials. by rewrite H1, H2. Qed.

Lemma kept_refl c : kept c c.
Proof. unfold kept. auto 10. Qed.

Lemma kept_trans c1 c2 c3 : kept c1 c2 -> kept c2 c3 -> kept c1 c3.
Proof.
  intros (Hu&Hs&Hd&Hp&Hsrv) (Hu'&Hs'&Hd'&Hp'&Hsrv').
  repeat split; try congruence.
  destruct Hsrv' as [E|[Hf E]]; [rewrite E; exact Hsrv|].
  destruct Hsrv as [E'|[Hf' E']].
  - right. split; [by rewrite <- E'|done].
  - by rewrite E' in Hf.
Qed.

#[global] Instance query_frame_preorder : PreOrder query_frame.
Proof.
  split.
  - intros w. repeat split. intros l c H. exists c. split; [done|apply kept_refl].
  - intros w1 w2 w3 (Hs&Hl&Hk) (Hs'&Hl'&Hk'). repeat split; try congruence.
    intros l c H. destruct (Hk _ _ H) as (c2&H2&K2).
    destruct (Hk' _ _ H2) as (c3&H3&K3). exists c3. split; [done|].
    by apply kept_trans with c2.
Qed.

#[global] Instance evolves_preorder : PreOrder evolves.
Proof.
  split.
  - intros w. split; [done|]. split; [|by left].
    intros l c H. exists c. split; [done|apply kept_refl].
  - intros w1 w2 w3 (Hl&Hk&Hc) (Hl'&Hk'&Hc'). split; [lia|]. split.
    + intros l c H. destruct (Hk _ _ H) as (c2&H2&K2).
      destruct (Hk' _ _ H2) as (c3&H3&K3). exists c3. split; [done|].
      by apply kept_trans with c2.
    + destruct Hc' as [E|(l&E&Hfresh&Hl3)].
      * rewrite E. destruct Hc as [?|(l&?&?&[c2 H2])]; [by left|right].
        exists l. split; [done|]. split; [done|].
        destruct (Hk' _ _ H2) as (c3&H3&_). by exists c3.
      * right. exists l. split; [done|]. split; [lia|done].
Qed.

#[global] Instance same_count_preorder : PreOrder same_count.
Proof. split; unfold same_count; [done|intros ???; congruence]. Qed.

#[global] Instance log_grows_preorder : PreOrder log_grows.
Proof.
  split.
  - intros w. exists []. by rewrite app_nil_r.
  - intros w1 w2 w3 [m1 H1] [m2 H2]. exists (m1 ++ m2)%list.
    by rewrite H2, H1, app_assoc.
Qed.

Lemma store_server_kept l v w :
  (forall c, heap w !! l = Some c -> truthy (server c) = false) ->
  v = JStr "my.geotab.com" ->
  query_frame w (store_server l v w).2.
Proof.
  intros Hfalsy ->. unfold store_server.
  destruct (heap w !! l) as [c|] eqn:Hl; simpl; [|reflexivity].
  split; [done|]. split; [simpl; by rewrite length_insert|]. simpl.
  intros l' c' H'. destruct (decide (l' = l)) as [E|Hne].
  - subst l'. assert (c' = c) as -> by congruence.
    rewrite list_lookup_insert_eq by (by eapply lookup_lt_Some).
    eexists. split; [done|]. unfold kept. simpl. repeat split. right. split; [by apply Hfalsy|done].
  - rewrite list_lookup_insert_ne by done. exists c'. split; [done|apply kept_refl].
Qed.

Lemma query_frame_evolves w w' : query_frame w w' -> evolves w w'.
Proof. intros (Hs&Hl&Hk). split; [lia|]. split; [done|]. left. by rewrite Hs. Qed.

Lemma post_query_frame r : preserves query_frame (post r).
Proof.
  intros w. unfold post.
  destruct (responses w) as [|[body|] rest]; simpl;
    (split; [done|]; split; [done|]; intros l c H; exists c;
     split; [done|apply kept_refl]).
Qed.

Lemma install_credentials_evolves c : preserves evolves (install_credentials c).
Proof.
  intros w. unfold install_credentials. simpl. split; simpl.
  { rewrite length_app. lia. }
  split.
  - intros l c0 H. exists c0. split; [|apply kept_refl].
    by apply lookup_app_l_Some.
  - right. exists (length (heap w)). split; [done|]. split; [done|].
    exists c. by rewrite lookup_app_r, Nat.sub_diag.
Qed.

Lemma set_reauthorize_count_evolves n : preserves evolves (set_reauthorize_count n).
Proof.
  intros w. simpl. split; [done|]. split; [|by left].
  intros l c H. exists c. split; [done|apply kept_refl].
Qed.

Lemma store_server_same_count l v : preserves same_count (store_server l v).
Proof. intros w. unfold store_server. by destruct (heap w !! l). Qed.

Lemma install_credentials_same_count c : preserves same_count (install_credentials c).
Proof. intros w. reflexivity. Qed.

Lemma post_same_count r : preserves same_count (post r).
Proof. intros w. unfold post. by destruct (responses w) as [|[body|] rest]. Qed.

Lemma store_server_log_grows l v : preserves log_grows (store_server l v).
Proof. intros w. exists []. unfold store_server. destruct (heap w !! l); simpl; by rewrite app_nil_r. Qed.

Lemma install_credentials_log_grows c : preserves log_grows (install_credentials c).
Proof. intros w. exists []. simpl. by rewrite app_nil_r. Qed.

Lemma set_reauthorize_count_log_grows n : preserves log_grows (set_reauthorize_count n).
Proof. intros w. exists []. simpl. by rewrite app_nil_r. Qed.

Lemma post_log_grows r : preserves log_grows (post r).
Proof.
  intros w. exists [r]. unfold post.
  by destruct (responses w) as [|[body|] rest].
Qed.

(** ** Frames of the operations *)

Section Frames.
Context (urlparse : string -> result ParseResult).

Lemma get_api_url_query_frame : preserves query_frame (_get_api_url urlparse).
Proof.
  intros w. unfold _get_api_url.
  apply step_bind; [apply _|apply preserves_the_credentials; apply _|].
  intros [l c] w1 Hc. apply the_credentials_inv in Hc as [-> [_ Hl]].
  apply step_bind; [apply _| |].
  - destruct (truthy (server c)) eqn:Ht; simpl; [reflexivity|].
    apply store_server_kept; [|done]. intros c0 H0.
    rewrite Hl in H0. by inversion H0; subst.
  - intros _ w2 _. revert w2. fold (preserves (A:=string) query_frame).
    preserves_tac.
Qed.

Lemma query_query_frame method parameters :
  preserves query_frame (_query urlparse method parameters).
Proof.
  apply preserves_query; [apply _|apply get_api_url_query_frame|].
  apply post_query_frame.
Qed.

Lemma get_api_url_evolves : preserves evolves (_get_api_url urlparse).
Proof. intros w. apply query_frame_evolves, get_api_url_query_frame. Qed.

Lemma post_evolves r : preserves evolves (post r).
Proof. intros w. apply query_frame_evolves, post_query_frame. Qed.

Lemma authenticate_evolves : preserves evolves (authenticate urlparse).
Proof.
  apply preserves_authenticate; [apply _|apply get_api_url_evolves| |].
  - apply install_credentials_evolves.
  - apply post_evolves.
Qed.

Lemma call_evolves depth method type_name parameters :
  preserves evolves (call urlparse depth method type_name parameters).
Proof.
  apply preserves_call; [apply _|apply get_api_url_evolves| | |].
  - apply install_credentials_evolves.
  - apply post_evolves.
  - apply set_reauthorize_count_evolves.
Qed.

Lemma query_same_count method parameters :
  preserves same_count (_query urlparse method parameters).
Proof.
  apply preserves_query; [apply _| |apply post_same_count].
  apply preserves_get_api_url; [apply _|apply store_server_same_count].
Qed.

Lemma authenticate_same_count : preserves same_count (authenticate urlparse).
Proof.
  apply preserves_authenticate; [apply _| | |apply post_same_count].
  - apply preserves_get_api_url; [apply _|apply store_server_same_count].
  - apply install_credentials_same_count.
Qed.

Lemma authenticate_log_grows : preserves log_grows (authenticate urlparse).
Proof.
  apply preserves_authenticate; [apply _| | |apply post_log_grows].
  - apply preserves_get_api_url; [apply _|apply store_server_log_grows].
  - apply install_credentials_log_grows.
Qed.

Lemma call_log_grows depth method type_name parameters :
  preserves log_grows (call urlparse depth method type_name parameters).
Proof.
  apply preserves_call; [apply _| | |apply post_log_grows|].
  - apply preserves_get_api_url; [apply _|apply store_server_log_grows].
  - apply install_credentials_log_grows.
  - apply set_reauthorize_count_log_grows.
Qed.
End Frames.

(** ** The shape of one [call] *)

Section Call.
Context (urlparse : string -> result ParseResult).

(** One frame of [call], by the outcome of its query. *)
Lemma call_cases depth method type_name parameters w l c :
  is_None method = false ->
  holds w l c ->
  let P := sent_parameters c type_name parameters in
  call urlparse (S depth) method type_name parameters w =
    match _query urlparse method P w with
    | (Return v, w1) =>
        if is_None v then (Return JNull, w1)
        else (Return v, (set_reauthorize_count 0 w1).2)
    | (Raise (MyGeotabException f n m s), w1) =>
        if eq_str n "InvalidUserException"
           && (_reauthorize_count (self w1) =? 0)%nat
        then (authenticate urlparse ≫= fun _ =>
              call urlparse depth method (JObj P) ∅)
               (set_reauthorize_count (_reauthorize_count (self w1) + 1) w1).2
        else (Raise (MyGeotabException f n m s), w1)
    | (Raise e, w1) => (Raise e, w1)
    end.
Proof.
  intros Hm Hh P. pose proof (the_credentials_holds _ _ _ Hh) as Hc.
  destruct Hh as [Hself Hl].
  cbn [call]. rewrite Hm. unfold_M. rewrite Hself. simpl. rewrite Hc.
  fold (merge_type_name type_name parameters).
  fold (attach_credentials c (merge_type_name type_name parameters)).
  fold (sent_parameters c type_name parameters). fold P.
  destruct (_query urlparse method P w) as [[v|e] w1]; simpl.
  - by destruct (is_None v).
  - destruct e; try done. unfold get_reauthorize_count.
    destruct (eq_str name "InvalidUserException" && _); done.
Qed.
End Call.

(** ** Reauthentication and retry *)

Section Retry.
Context (urlparse : string -> result ParseResult).

Lemma query_keeps_self method parameters w :
  self (_query urlparse method parameters w).2 = self w.
Proof. by destruct (query_query_frame urlparse method parameters w) as (?&_). Qed.

Lemma query_keeps_count method parameters w r w1 :
  _query urlparse method parameters w = (r, w1) ->
  _reauthorize_count (self w1) = _reauthorize_count (self w).
Proof.
  intros H. pose proof (query_keeps_self method parameters w) as Hs.
  rewrite H in Hs. simpl in Hs. by rewrite Hs.
Qed.

End Retry.


(** ** The reauthorization counter *)

#[global] Instance count_bounded_preorder : PreOrder count_bounded.
Proof.
  split.
  - intros w. unfold count_bounded. done.
  - intros w1 w2 w3 H1 H2. unfold count_bounded in *. auto.
Qed.

Lemma same_count_bounded w w' : same_count w w' -> count_bounded w w'.
Proof. unfold same_count, count_bounded. intros ->. done. Qed.

Section Counter.
Context (urlparse : string -> result ParseResult).

Lemma query_count_bounded method parameters :
  preserves count_bounded (_query urlparse method parameters).
Proof. intros w. apply same_count_bounded, query_same_count. Qed.

Lemma authenticate_count_bounded : preserves count_bounded (authenticate urlparse).
Proof. intros w. apply same_count_bounded, authenticate_same_count. Qed.

Lemma call_count_bounded depth method type_name parameters :
  preserves count_bounded (call urlparse depth method type_name parameters).
Proof.
  revert method type_name parameters.
  induction depth as [|depth IH]; intros method type_name parameters;
    cbn [call]; [preserves_tac|].
  destruct (is_None method); [preserves_tac|].
  pbind; [intros w; reflexivity|intros oc].
  pbind.
  { apply preserves_when; [apply _|]. pbind; [apply authenticate_count_bounded|].
    intros. preserves_tac. }
  intros _. pbind; [preserves_tac|intros [l c]].
  ptry.
  - pbind; [apply query_count_bounded|intros r].
    destruct (negb (is_None r)); [|preserves_tac].
    pbind; [|intros; preserves_tac]. intros w _. simpl. lia.
  - intros f nm msg st w. apply step_bind; [apply _|reflexivity|].
    intros k w1 Hk. inversion Hk; subst k w1. clear Hk.
    destruct (eq_str nm "InvalidUserException"); simpl; [|reflexivity].
    destruct (_reauthorize_count (self w)) as [|k] eqn:Hcount; simpl;
      [|reflexivity].
    intros _.
    pose proof (authenticate_same_count urlparse
                  (set_reauthorize_count 1 w).2) as Ha.
    unfold_M. simpl in *.
    destruct (authenticate urlparse _) as [[a|e] w3]; simpl in *.
    + apply IH. unfold same_count in Ha. simpl in Ha. lia.
    + unfold same_count in Ha. simpl in Ha. lia.
Qed.

Lemma run_count_bounded depth o : preserves count_bounded (run urlparse depth o).
Proof.
  destruct o; cbn [run]; unfold multi_call, get, add, set, remove;
    try apply call_count_bounded.
  pbind; [apply authenticate_count_bounded|intros; preserves_tac].
Qed.

Lemma reachable_count_bounded w :
  reachable urlparse w -> _reauthorize_count (self w) <= 1.
Proof.
  induction 1 as [u p d s srv w0 w Hinit|depth o w _ IH|script w _ IH].
  - unfold __init__ in Hinit.
    destruct (is_None u); [done|].
    destruct (is_None p && is_None s); [done|].
    inversion Hinit. simpl. lia.
  - by apply run_count_bounded.
  - exact IH.
Qed.

(** A [call] that returns has a method and a client that holds
    credentials. *)
Lemma call_return_inv depth method type_name parameters w v w' :
  call urlparse (S depth) method type_name parameters w = (Return v, w') ->
  is_None method = false /\ exists l c, holds w l c.
Proof.
  cbn [call]. destruct (is_None method); [done|]. intros H. split; [done|].
  unfold_M. simpl in H. unfold holds.
  destruct (credentials (self w)) as [l|] eqn:Hc.
  - simpl in H. unfold the_credentials in H. rewrite Hc in H.
    destruct (heap w !! l) as [c|] eqn:Hl; [eauto|done].
  - simpl in H. unfold authenticate in H. unfold_M.
    unfold the_credentials in H at 1. by rewrite Hc in H.
Qed.

Lemma call_resets_count depth method type_name parameters w v :
  (call urlparse depth method type_name parameters w).1 = Return v ->
  v <> JNull ->
  _reauthorize_count (self (call urlparse depth method type_name parameters w).2) = 0.
Proof.
  revert method type_name parameters w.
  induction depth as [|depth IH]; intros method type_name parameters w Hv Hnn;
    [done|].
  destruct (call_return_inv depth method type_name parameters w v
              (call urlparse (S depth) method type_name parameters w).2)
    as (Hm & l & c & Hh).
  { rewrite <- Hv. apply run_eta. }
  rewrite (call_cases urlparse _ _ _ _ _ _ _ Hm Hh) in Hv |- *.
  destruct (_query urlparse method _ w) as [[v1|e] w1]; simpl in *.
  - destruct (is_None v1) eqn:Hv1; simpl in *; [congruence|done].
  - destruct e; try done.
    destruct (eq_str name "InvalidUserException" && _); [|done].
    unfold_M.
    destruct (authenticate urlparse _) as [[a|e] w3]; [|done].
    by apply IH.
Qed.

(** C5 (as amended): in every state a client can reach the counter is at
    most 1, and after any [call] that returns a result other than [None]
    the counter is 0. *)
Theorem reauthorize_count_bounded_and_reset :
  (forall w, reachable urlparse w -> _reauthorize_count (self w) <= 1) /\
  (forall depth method type_name parameters w v,
     (call urlparse depth method type_name parameters w).1 = Return v ->
     v <> JNull ->
     _reauthorize_count
       (self (call urlparse depth method type_name parameters w).2) = 0).
Proof. split; [apply reachable_count_bounded|apply call_resets_count]. Qed.
End Counter.

Lemma reauthorize_count_bounded_and_reset_witness :
  _reauthorize_count
    (self (run urlparse_bare 2 (op_call (JStr "Get") (JStr "Device") ∅)
             expired_then_ok).2) <= 1 /\
  _reauthorize_count
    (self (call urlparse_bare 2 (JStr "Get") (JStr "Device") ∅
             expired_then_ok).2) = 0.
Proof.
  split.
  - apply (proj1 (reauthorize_count_bounded_and_reset urlparse_bare)).
    apply reachable_run.
    apply (reachable_init urlparse_bare (JStr "user@example.com") (JStr "secret")
             (JStr "db") JNull (JStr "my.geotab.com")
             (boot (responses expired_then_ok))).
    vm_compute. reflexivity.
  - apply (proj2 (reauthorize_count_bounded_and_reset urlparse_bare) 2
             (JStr "Get") (JStr "Device") ∅ expired_then_ok
             (JObj {[ "id" := JStr "b123" ]})).
    + vm_compute. reflexivity.
    + discriminate.
Defined.

(** C5, the claim as stated fails: the retried [Set] completes and returns
    the server's null result, and the counter is left at 1. *)
Lemma count_stays_one_after_null_result :
  let r := set urlparse_bare 2 (JStr "Device") (JObj {[ "id" := JStr "b123" ]})
             expired_then_null in
  r.1 = Return JNull /\ _reauthorize_count (self r.2) = 1.
Proof. split; vm_compute; reflexivity. Qed.

(** ** What [call] puts on the wire *)

Section Wire.
Context (urlparse : string -> result ParseResult).

Lemma query_request method parameters w u w1 :
  _get_api_url urlparse w = (Return u, w1) ->
  sent (_query urlparse method parameters w).2
    = (sent w ++ [rpc_request u method parameters])%list.
Proof. apply query_unfold. Qed.

(** The first request of a [call] is its own query, with the parameters
    prepared from the credentials held on entry. *)
Lemma call_first_request depth method type_name parameters w l c u w1 :
  is_None method = false ->
  holds w l c ->
  _get_api_url urlparse w = (Return u, w1) ->
  exists more,
    sent (call urlparse (S depth) method type_name parameters w).2
      = (sent w ++ rpc_request u method (sent_parameters c type_name parameters)
           :: more)%list /\
    (forall v, (_query urlparse method (sent_parameters c type_name parameters) w).1
                 = Return v -> more = []).
Proof.
  intros Hm Hh Hu.
  rewrite (call_cases urlparse _ _ _ _ _ _ _ Hm Hh).
  pose proof (query_request method (sent_parameters c type_name parameters)
                _ _ _ Hu) as Hq.
  destruct (_query urlparse method _ w) as [[v|e] w2]; simpl in *.
  - exists []. split; [|done]. by destruct (is_None v).
  - assert (exists more,
              sent (let Q := sent_parameters c type_name parameters in
                    (authenticate urlparse ≫= fun _ =>
                     call urlparse depth method (JObj Q) ∅)
                      (set_reauthorize_count (_reauthorize_count (self w2) + 1) w2).2).2
                = (sent w2 ++ more)%list) as [more Hmore].
    { simpl.
      assert (preserves log_grows
                (authenticate urlparse ≫= fun _ =>
                 call urlparse depth method
                   (JObj (sent_parameters c type_name parameters)) ∅)) as Hp.
      { pbind; [apply authenticate_log_grows|intros; apply call_log_grows]. }
      apply (Hp (set_reauthorize_count (_reauthorize_count (self w2) + 1) w2).2). }
    simpl in Hmore.
    destruct e; try (exists []; by split).
    destruct (eq_str name "InvalidUserException" && _).
    + exists more. split; [|done]. by rewrite Hmore, Hq, <- app_assoc.
    + exists []. by split.
Qed.

(** C4 (as amended): the request a [call] sends carries the parameters
    with the session credentials [{userName, sessionId, database}] attached
    under [credentials] when the parameters have no such key and the
    credentials held carry a session token; parameters that have the key,
    or a client without a session token, go out with nothing attached. *)
Theorem call_attaches_session_credentials
    depth method type_name parameters w l c u w1 :
  is_None method = false ->
  holds w l c ->
  _get_api_url urlparse w = (Return u, w1) ->
  let merged := merge_type_name type_name parameters in
  exists P more,
    sent (call urlparse (S depth) method type_name parameters w).2
      = (sent w ++ rpc_request u method P :: more)%list /\
    (merged !! "credentials" = None -> truthy (session_id c) = true ->
     P = <["credentials" :=
             JObj {[ "userName" := username c; "sessionId" := session_id c;
                     "database" := database c ]}]> merged) /\
    (is_Some (merged !! "credentials") \/ truthy (session_id c) = false ->
     P = merged).
Proof.
  intros Hm Hh Hu merged.
  destruct (call_first_request depth method type_name parameters
              _ _ _ _ _ Hm Hh Hu) as (more & Hsent & _).
  exists (sent_parameters c type_name parameters), more.
  split; [exact Hsent|]. unfold sent_parameters, attach_credentials. fold merged.
  split.
  - intros Hnone Hs. rewrite Hs, bool_decide_eq_false_2; [done|].
    rewrite Hnone. by intros [? ?].
  - intros [Hsome|Hs].
    + by rewrite bool_decide_eq_true_2.
    + by rewrite Hs, andb_false_r.
Qed.

(** C8: [multi_call] is one [call] of [ExecuteMultiCall]; its request
    carries under [calls] the list of [{method, params}] records, one per
    input pair and in the input's order, and it is the only request when
    the query returns. *)
Theorem multi_call_forwards_calls_in_order depth calls w l c u w1 :
  holds w l c ->
  _get_api_url urlparse w = (Return u, w1) ->
  multi_call urlparse (S depth) calls w
    = call urlparse (S depth) (JStr "ExecuteMultiCall") JNull
        {[ "calls" := JList (formatted_calls calls) ]} w /\
  length (formatted_calls calls) = length calls /\
  (forall i m p, calls !! i = Some (m, p) ->
     formatted_calls calls !! i = Some (JObj {[ "method" := m; "params" := p ]})) /\
  exists P more,
    sent (multi_call urlparse (S depth) calls w).2
      = (sent w ++ rpc_request u (JStr "ExecuteMultiCall") P :: more)%list /\
    P !! "calls" = Some (JList (formatted_calls calls)) /\
    (forall v, (_query urlparse (JStr "ExecuteMultiCall") P w).1 = Return v ->
       more = []).
Proof.
  intros Hh Hu. split; [reflexivity|]. split; [apply length_map|]. split.
  - intros i m p Hi. unfold formatted_calls. by rewrite list_lookup_fmap, Hi.
  - unfold multi_call. fold (formatted_calls calls).
    destruct (call_first_request depth (JStr "ExecuteMultiCall") JNull
                {[ "calls" := JList (formatted_calls calls) ]}
                _ _ _ _ _ eq_refl Hh Hu) as (more & Hsent & Hone).
    eexists _, more. split; [exact Hsent|]. split; [|exact Hone].
    unfold sent_parameters, attach_credentials, merge_type_name. simpl.
    destruct (_ && _).
    + rewrite lookup_insert_ne by done. apply lookup_singleton_eq.
    + apply lookup_singleton_eq.
Qed.
End Wire.

Lemma call_attaches_session_credentials_witness :
  let w := answered (session_client (JStr "my.geotab.com")) in
  exists P more,
    sent (call urlparse_bare 1 (JStr "Get") (JStr "Device") ∅ w).2
      = (sent w ++ rpc_request "https://my.geotab.com/apiv1" (JStr "Get") P
           :: more)%list /\
    P = <["credentials" :=
            JObj {[ "userName" := JStr "user@example.com";
                    "sessionId" := JStr "s1"; "database" := JStr "db" ]}]>
          (merge_type_name (JStr "Device") ∅).
Proof.
  intros w.
  destruct (call_attaches_session_credentials urlparse_bare 0 (JStr "Get")
              (JStr "Device") ∅ w 0 (session_credentials (JStr "my.geotab.com"))
              "https://my.geotab.com/apiv1" w)
    as (P & more & Hsent & Hattach & _).
  - reflexivity.
  - split; reflexivity.
  - reflexivity.
  - exists P, more. split; [exact Hsent|]. apply Hattach; reflexivity.
Defined.

(** C4, the claim as stated fails: a client that has a password and no
    session token sends the RPC straight away, with no [Authenticate]
    request before it and no [credentials] among its parameters. *)
Lemma call_without_session_sends_bare_request :
  map (fun r => (request_method r, request_params r))
    (sent (call urlparse_bare 2 (JStr "Get") (JStr "Device") ∅
             (answered (password_client (JStr "my.geotab.com")))).2)
  = [(Return (JStr "Get"), Return (JObj {[ "typeName" := JStr "Device" ]}))].
Proof. vm_compute. reflexivity. Qed.

Lemma multi_call_forwards_calls_in_order_witness :
  let w := answered (session_client (JStr "my.geotab.com")) in
  exists P more,
    sent (multi_call urlparse_bare 1 two_gets w).2
      = (sent w ++ rpc_request "https://my.geotab.com/apiv1"
                     (JStr "ExecuteMultiCall") P :: more)%list /\
    P !! "calls" = Some (JList (formatted_calls two_gets)).
Proof.
  intros w.
  destruct (multi_call_forwards_calls_in_order urlparse_bare 0 two_gets w 0
              (session_credentials (JStr "my.geotab.com"))
              "https://my.geotab.com/apiv1" w)
    as (_ & _ & _ & P & more & Hsent & Hcalls & _).
  - split; reflexivity.
  - reflexivity.
  - exists P, more. by split.
Defined.

(** The multi-call example end to end: one request, the two records in
    order. *)
Example multi_call_two_gets :
  map (fun r => (request_method r,
                 rbind (request_params r) (fun p => getitem p "calls")))
    (sent (multi_call urlparse_bare 2 two_gets
             (answered (session_client (JStr "my.geotab.com")))).2)
  = [(Return (JStr "ExecuteMultiCall"),
      Return (JList
        [JObj {[ "method" := JStr "Get";
                 "params" := JObj {[ "typeName" := JStr "Trip" ]} ]};
         JObj {[ "method" := JStr "Get";
                 "params" := JObj {[ "typeName" := JStr "Device" ]} ]}]))].
Proof. vm_compute. reflexivity. Qed.

(** ** The parameters of the retry *)

(** C2, on the code: [call('Get', 'Device', search=dict(id='b123'))] on an
    expired session sends [Get], [Authenticate], [Get]; the first [Get]
    carries [typeName], [search] and [credentials], the retried one carries
    the whole first mapping under [typeName] and has no [search]. *)
Theorem retry_sends_other_parameters :
  let w' := (call urlparse_bare 2 (JStr "Get") (JStr "Device")
               {[ "search" := JObj {[ "id" := JStr "b123" ]} ]}
               expired_session).2 in
  map request_method (sent w')
    = [Return (JStr "Get"); Return (JStr "Authenticate"); Return (JStr "Get")] /\
  request_params <$> sent w' !! 0 = Some (Return (JObj first_parameters)) /\
  request_params <$> sent w' !! 2
    = Some (Return (JObj
        {[ "typeName" := JObj first_parameters;
           "credentials" := JObj {[ "userName" := JStr "user@example.com";
                                    "sessionId" := JStr "s2";
                                    "database" := JStr "db" ]} ]})) /\
  first_parameters !! "search" = Some (JObj {[ "id" := JStr "b123" ]}) /\
  rbind (default (Raise IndexError) (request_params <$> sent w' !! 2))
        (fun p => getitem p "search") = Raise (KeyError "search").
Proof. repeat split; vm_compute; reflexivity. Qed.

(** ** In-place mutation and replacement of the credentials *)

Section Store.
Context (urlparse : string -> result ParseResult).

Lemma run_evolves depth o : preserves evolves (run urlparse depth o).
Proof.
  destruct o; cbn [run]; unfold multi_call, get, add, set, remove;
    try apply call_evolves.
  pbind; [apply authenticate_evolves|intros; preserves_tac].
Qed.

(** C9 (as amended): across any operation of the client every existing
    [Credentials] object keeps its username, session token, database and
    password, and keeps its server unless that was falsy, in which case it
    may have been set, in place, to the default host; the client's
    reference is unchanged or bound to an object created by the
    operation. *)
Theorem operations_keep_credentials_objects depth o w :
  let w' := (run urlparse depth o w).2 in
  (forall l c, heap w !! l = Some c ->
     exists c', heap w' !! l = Some c' /\
       username c' = username c /\ session_id c' = session_id c /\
       database c' = database c /\ password c' = password c /\
       (server c' = server c \/
        (truthy (server c) = false /\ server c' = JStr "my.geotab.com"))) /\
  (credentials (self w') = credentials (self w) \/
   exists l, credentials (self w') = Some l /\ length (heap w) <= l /\
             is_Some (heap w' !! l)).
Proof.
  intros w'. destruct (run_evolves depth o w) as (_ & Hkept & Href).
  split; [exact Hkept|exact Href].
Qed.
End Store.

Lemma operations_keep_credentials_objects_witness :
  let w := expired_session in
  let w' := (run urlparse_bare 2 (op_get (JStr "Device") ∅) w).2 in
  exists c', heap w' !! 0 = Some c' /\
    username c' = JStr "user@example.com" /\ session_id c' = JStr "s1" /\
    database c' = JStr "db" /\ password c' = JNull /\
    (server c' = JStr "my.geotab.com" \/
     (truthy (JStr "my.geotab.com") = false /\ server c' = JStr "my.geotab.com")).
Proof.
  intros w w'.
  apply (proj1 (operations_keep_credentials_objects urlparse_bare 2
                  (op_get (JStr "Device") ∅) w) 0
           (session_credentials (JStr "my.geotab.com"))).
  reflexivity.
Defined.

(** C9, the claim as stated fails: a client built with [server=None] has
    the [server] attribute of its one [Credentials] object overwritten by
    the first request; the client still refers to that same object. *)
Lemma get_api_url_mutates_server_in_place :
  let w := answered (session_client JNull) in
  let w' := (get urlparse_bare 2 (JStr "Device") ∅ w).2 in
  credentials (self w) = Some 0 /\ credentials (self w') = Some 0 /\
  length (heap w') = 1 /\
  server <$> heap w !! 0 = Some JNull /\
  server <$> heap w' !! 0 = Some (JStr "my.geotab.com").
Proof. repeat split; vm_compute; reflexivity. Qed.

(** ** The credentials installed by [authenticate] *)

(** The handler of [authenticate] only ever raises. *)
Ltac handler_raises H :=
  match type of H with
  | context [match ?e with Exception _ => _ | _ => _ end] =>
      destruct e; try done;
      match type of H with
      | context [eq_str ?n "InvalidUserException"] =>
          destruct (eq_str n "InvalidUserException"); simpl in H; [|done];
          match type of H with
          | context [the_credentials ?w] =>
              by destruct (the_credentials w) as [[[? ?]|?] ?]
          end
      end
  end.

Section Authenticate.
Context (urlparse : string -> result ParseResult).

(** C10: when [authenticate()] returns a [Credentials] object, that object
    is new, the client now refers to it, its password is [None], and its
    other attributes are the server's [userName], [sessionId] and
    [database] and the resolved host: the server's [path] unless that is
    [ThisServer], else the host held before. *)
Theorem authenticate_installs_credentials_without_password w l w' :
  authenticate urlparse w = (Return (Some l), w') ->
  exists l0 c0 result w1 c1 new_server cj c,
    holds w l0 c0 /\
    _query urlparse (JStr "Authenticate") (auth_data c0) w = (Return result, w1) /\
    holds w1 l0 c1 /\
    getitem result "path" = Return new_server /\
    getitem result "credentials" = Return cj /\
    getitem cj "userName" = Return (username c) /\
    getitem cj "sessionId" = Return (session_id c) /\
    getitem cj "database" = Return (database c) /\
    server c = (if eq_str new_server "ThisServer" then server c1 else new_server) /\
    password c = JNull /\
    l = length (heap w1) /\
    heap w' = (heap w1 ++ [c])%list /\
    credentials (self w') = Some l.
Proof.
  unfold authenticate. unfold_M. intros H.
  destruct (the_credentials w) as [[[l0 c0]|e] w0] eqn:Hc; [|done].
  apply the_credentials_inv in Hc as [-> Hh].
  fold (auth_data c0) in H.
  destruct (_query urlparse (JStr "Authenticate") (auth_data c0) w)
    as [[result|e] w1] eqn:Hq.
  - simpl in H. destruct (truthy result); simpl in H; [|done].
    destruct (getitem result "path") as [new_server|] eqn:Hpath; simpl in H; [|by handler_raises H].
    destruct (the_credentials w1) as [[[l1 c1]|e] w1'] eqn:Hc1; simpl in H; [|by handler_raises H].
    apply the_credentials_inv in Hc1 as [-> Hh1].
    destruct (getitem result "credentials") as [cj|] eqn:Hcj; simpl in H; [|by handler_raises H].
    destruct (getitem cj "userName") as [userName|] eqn:Hu; simpl in H; [|by handler_raises H].
    destruct (getitem cj "sessionId") as [sessionId|] eqn:Hs; simpl in H; [|by handler_raises H].
    destruct (getitem cj "database") as [db|] eqn:Hd; simpl in H; [|by handler_raises H].
    inversion H; subst l w'. clear H.
    assert (l1 = l0) as ->.
    { pose proof (query_keeps_self urlparse (JStr "Authenticate") (auth_data c0) w)
        as Hself.
      rewrite Hq in Hself. simpl in Hself.
      destruct Hh as [Hl0 _], Hh1 as [Hl1 _]. rewrite Hself in Hl1. congruence. }
    exists l0, c0, result, w1, c1, new_server, cj.
    eexists. repeat split; try done; try (by destruct Hh); try (by destruct Hh1).
    simpl. by destruct (eq_str new_server "ThisServer").
  - simpl in H. destruct e; try done.
    destruct (eq_str name "InvalidUserException"); simpl in H; [|done].
    by destruct (the_credentials w1) as [[[? ?]|?] ?].
Qed.
End Authenticate.

Lemma authenticate_installs_credentials_without_password_witness :
  exists c,
    heap (authenticate urlparse_bare
            (password_client (JStr "my.geotab.com")
               [Some (authenticate_response "my3.geotab.com" "user@example.com"
                        "s2" "db")])).2 !! 1 = Some c /\
    password c = JNull.
Proof.
  destruct (authenticate_installs_credentials_without_password urlparse_bare
              (password_client (JStr "my.geotab.com")
                 [Some (authenticate_response "my3.geotab.com" "user@example.com"
                          "s2" "db")]) 1
              (authenticate urlparse_bare
                 (password_client (JStr "my.geotab.com")
                    [Some (authenticate_response "my3.geotab.com"
                             "user@example.com" "s2" "db")])).2)
    as (l0 & c0 & result & w1 & c1 & new_server & cj & c & _ & _ & _ & _
        & _ & _ & _ & _ & _ & Hpw & Hl & Hheap & _).
  - vm_compute. reflexivity.
  - exists c. split; [|exact Hpw].
    rewrite Hheap. by apply list_lookup_middle.
Defined.

(** * Further properties of the client *)

(** ** Calls that never reach the transport, and the depth of the retry *)

Section Depth.
Context (urlparse : string -> result ParseResult).

(** A client that does not hold a [Credentials] object cannot call: the
    authenticate-first guard reads [self.credentials.database]. *)
Lemma call_not_holding depth method type_name parameters w :
  is_None method = false ->
  (forall l c, ~ holds w l c) ->
  call urlparse (S depth) method type_name parameters w = (Raise AttributeError, w).
Proof.
  intros Hm Hnot. cbn [call]. rewrite Hm. unfold_M. simpl.
  destruct (credentials (self w)) as [l|] eqn:Hc; simpl.
  - unfold the_credentials. rewrite Hc.
    destruct (heap w !! l) as [c|] eqn:Hl; [|done].
    by destruct (Hnot l c).
  - unfold authenticate. unfold_M. unfold the_credentials at 1. by rewrite Hc.
Qed.

Lemma holds_dec w : (exists l c, holds w l c) \/ (forall l c, ~ holds w l c).
Proof.
  unfold holds. destruct (credentials (self w)) as [l|] eqn:Hc.
  - destruct (heap w !! l) as [c|] eqn:Hl.
    + left. eauto.
    + right. intros l' c' [H1 H2]. congruence.
  - right. by intros l c [H1 _].
Qed.

(** With the counter off 0 a call never recurses. *)
Lemma call_no_retry depth method type_name parameters w :
  _reauthorize_count (self w) <> 0 ->
  call urlparse (S depth) method type_name parameters w
    = call urlparse 1 method type_name parameters w.
Proof.
  intros Hcount. destruct (is_None method) eqn:Hm.
  { cbn [call]. by rewrite Hm. }
  destruct (holds_dec w) as [(l & c & Hh)|Hnot].
  - rewrite !(call_cases urlparse _ _ _ _ _ _ _ Hm Hh).
    destruct (_query urlparse method _ w) as [[v|e] w1] eqn:Hq; [done|].
    destruct e; try done.
    rewrite (query_keeps_count urlparse _ _ _ _ _ Hq).
    destruct (_reauthorize_count (self w)); [done|].
    by rewrite andb_false_r.
  - by rewrite !call_not_holding.
Qed.

(** X1: the retry never nests: whatever the state of the client and the
    answers of the server, a call that may use any number of frames beyond
    two does exactly what it does with two. *)
Theorem call_two_frames_suffice depth method type_name parameters w :
  call urlparse (S (S depth)) method type_name parameters w
    = call urlparse 2 method type_name parameters w.
Proof.
  destruct (is_None method) eqn:Hm.
  { cbn [call]. by rewrite Hm. }
  destruct (holds_dec w) as [(l & c & Hh)|Hnot].
  - rewrite !(call_cases urlparse _ _ _ _ _ _ _ Hm Hh).
    destruct (_query urlparse method _ w) as [[v|e] w1] eqn:Hq; [done|].
    destruct e; try done.
    destruct (eq_str name "InvalidUserException" && _) eqn:Hcond; [|done].
    apply andb_true_iff in Hcond as [_ H0]. apply Nat.eqb_eq in H0.
    rewrite H0. unfold_M.
    pose proof (authenticate_same_count urlparse
                  (set_reauthorize_count (0 + 1) w1).2) as Ha.
    destruct (authenticate urlparse _) as [[a|e] w3]; [|done].
    unfold same_count in Ha. simpl in Ha.
    rewrite (call_no_retry depth) by lia. done.
  - by rewrite !call_not_holding.
Qed.

(** X2: a call on a client whose [credentials] attribute is [None] raises
    [AttributeError] from the authenticate-first guard; nothing is sent and
    the client is as before. *)
Theorem call_without_credentials_raises depth method type_name parameters w :
  is_None method = false ->
  credentials (self w) = None ->
  call urlparse (S depth) method type_name parameters w = (Raise AttributeError, w).
Proof.
  intros Hm Hc. apply call_not_holding; [done|].
  intros l c [H _]. congruence.
Qed.
End Depth.

Lemma call_without_credentials_raises_witness :
  call urlparse_bare 2 (JStr "Get") (JStr "Device") ∅
    (without_credentials (answered (session_client (JStr "my.geotab.com"))))
  = (Raise AttributeError,
     without_credentials (answered (session_client (JStr "my.geotab.com")))).
Proof.
  apply (call_without_credentials_raises urlparse_bare 1); reflexivity.
Defined.

(** ** Transport failures and the successful retry *)

Section Outcomes.
Context (urlparse : string -> result ParseResult).

Lemma query_transport_down method parameters w u w1 :
  _get_api_url urlparse w = (Return u, w1) ->
  transport_down w ->
  (_query urlparse method parameters w).1 = Raise TransportError.
Proof.
  intros H Hdown.
  pose proof (get_api_url_same_transport urlparse w) as (_&Hresp&_).
  rewrite H in Hresp. simpl in Hresp.
  unfold _query. unfold_M. rewrite H. unfold post. rewrite Hresp.
  by destruct Hdown as [->|[rest ->]].
Qed.

(** X3: a transport failure is not an application error: [call] raises it
    as it is after its one request, without logging in again and without
    touching the client's attributes. *)
Theorem call_propagates_transport_failure
    depth method type_name parameters w l c u w1 :
  is_None method = false ->
  holds w l c ->
  _get_api_url urlparse w = (Return u, w1) ->
  transport_down w ->
  let r := call urlparse (S depth) method type_name parameters w in
  r.1 = Raise TransportError /\
  sent r.2 = (sent w ++ [rpc_request u method
                           (sent_parameters c type_name parameters)])%list /\
  self r.2 = self w.
Proof.
  intros Hm Hh Hu Hdown r. unfold r.
  pose proof (query_transport_down method
                (sent_parameters c type_name parameters) _ _ _ Hu Hdown) as Hq.
  pose proof (query_request urlparse method
                (sent_parameters c type_name parameters) _ _ _ Hu) as Hsent.
  pose proof (query_keeps_self urlparse method
                (sent_parameters c type_name parameters) w) as Hself.
  rewrite (call_cases urlparse _ _ _ _ _ _ _ Hm Hh).
  destruct (_query urlparse method _ w) as [[v|e] w2]; simpl in *; [done|].
  inversion Hq; subst e. done.
Qed.

(** X4: the retry that succeeds: an [InvalidUserException] at counter 0,
    a login that returns and a retried query that returns a result other
    than [None] make [call] return that result, with the counter back at 0
    and nothing else done after the retried query. *)
Theorem call_returns_retried_result
    depth method type_name parameters w l c f n m s w1 a w3 l3 c3 v w4 :
  is_None method = false ->
  holds w l c ->
  _reauthorize_count (self w) = 0 ->
  let P := sent_parameters c type_name parameters in
  _query urlparse method P w = (Raise (MyGeotabException f n m s), w1) ->
  eq_str n "InvalidUserException" = true ->
  authenticate urlparse (set_reauthorize_count 1 w1).2 = (Return a, w3) ->
  holds w3 l3 c3 ->
  _query urlparse method (sent_parameters c3 (JObj P) ∅) w3 = (Return v, w4) ->
  v <> JNull ->
  call urlparse (S (S depth)) method type_name parameters w
    = (Return v, (set_reauthorize_count 0 w4).2).
Proof.
  intros Hm Hh H0 P Hq Hn Ha Hh3 Hq3 Hv.
  rewrite (call_cases urlparse _ _ _ _ _ _ _ Hm Hh). fold P. rewrite Hq, Hn.
  rewrite (query_keeps_count urlparse _ _ _ _ _ Hq), H0.
  cbn [andb Nat.eqb Nat.add]. unfold_M. rewrite Ha.
  rewrite (call_cases urlparse _ _ _ _ _ _ _ Hm Hh3). simpl. rewrite Hq3.
  destruct v; done.
Qed.
End Outcomes.

Lemma call_propagates_transport_failure_witness :
  let r := call urlparse_bare 2 (JStr "Get") (JStr "Device") ∅
             (session_client (JStr "my.geotab.com") []) in
  r.1 = Raise TransportError /\
  sent r.2 = (sent (session_client (JStr "my.geotab.com") []) ++
              [rpc_request "https://my.geotab.com/apiv1" (JStr "Get")
                 (sent_parameters (session_credentials (JStr "my.geotab.com"))
                    (JStr "Device") ∅)])%list /\
  self r.2 = self (session_client (JStr "my.geotab.com") []).
Proof.
  apply (call_propagates_transport_failure urlparse_bare 1 (JStr "Get")
           (JStr "Device") ∅ (session_client (JStr "my.geotab.com") []) 0
           (session_credentials (JStr "my.geotab.com"))
           "https://my.geotab.com/apiv1"
           (session_client (JStr "my.geotab.com") [])).
  - reflexivity.
  - split; reflexivity.
  - reflexivity.
  - by left.
Defined.

Lemma call_returns_retried_result_witness :
  (call urlparse_bare 2 (JStr "Get") (JStr "Device") ∅ expired_session).1
    = Return (JList [JObj {[ "id" := JStr "b123" ]}]).
Proof.
  pose (c := session_credentials (JStr "my.geotab.com")).
  pose (c3 := mkCredentials (JStr "user@example.com") (JStr "s2") (JStr "db")
                (JStr "my.geotab.com") JNull).
  pose (P := sent_parameters c (JStr "Device") ∅).
  pose (w1 := (_query urlparse_bare (JStr "Get") P expired_session).2).
  pose (w3 := (authenticate urlparse_bare (set_reauthorize_count 1 w1).2).2).
  pose (w4 := (_query urlparse_bare (JStr "Get")
                 (sent_parameters c3 (JObj P) ∅) w3).2).
  rewrite (call_returns_retried_result urlparse_bare 0 (JStr "Get")
             (JStr "Device") ∅ expired_session 0 c
             (error_record "InvalidUserException" "m" "s")
             (JStr "InvalidUserException") (JStr "m") (JStr "s") w1
             (Some 1) w3 1 c3 (JList [JObj {[ "id" := JStr "b123" ]}]) w4).
  - reflexivity.
  - reflexivity.
  - split; vm_compute; reflexivity.
  - reflexivity.
  - vm_compute. reflexivity.
  - reflexivity.
  - vm_compute. reflexivity.
  - split; vm_compute; reflexivity.
  - vm_compute. reflexivity.
  - discriminate.
Defined.

(** ** The outcomes of [authenticate] *)

Lemma the_credentials_world w : (the_credentials w).2 = w.
Proof.
  unfold the_credentials. destruct (credentials (self w)) as [l|]; [|done].
  by destruct (heap w !! l).
Qed.

(** Closes a branch of [authenticate] that ends in an exception or in
    [None], in the world the query left. *)
Ltac authenticate_unchanged w1 :=
  right; simpl;
  repeat match goal with
         | |- context [match ?e with Exception _ => _ | _ => _ end] => destruct e
         | |- context [eq_str ?n "InvalidUserException"] =>
             destruct (eq_str n "InvalidUserException")
         end; simpl;
  try (pose proof (the_credentials_world w1);
       destruct (the_credentials w1) as [[[? ?]|?] ?]; simpl in *; subst);
  (split; [intros ?; discriminate|reflexivity]).

Section AuthenticateOutcomes.
Context (urlparse : string -> result ParseResult).

(** Either [authenticate] returns a new object, created on top of the world
    its query left, or it leaves exactly the world its query left. *)
Lemma authenticate_outcome w l c :
  holds w l c ->
  let q := _query urlparse (JStr "Authenticate") (auth_data c) w in
  let r := authenticate urlparse w in
  (exists c', r.1 = Return (Some (length (heap q.2))) /\
              r.2 = set_self (mkAPI (Some (length (heap q.2)))
                                (_reauthorize_count (self q.2)))
                      (set_heap (heap q.2 ++ [c']) q.2) /\
              password c' = JNull) \/
  ((forall l', r.1 <> Return (Some l')) /\ r.2 = q.2).
Proof.
  intros Hh q r. unfold r, q. clear r q.
  unfold authenticate. unfold_M. rewrite (the_credentials_holds _ _ _ Hh).
  fold (auth_data c).
  destruct (_query urlparse (JStr "Authenticate") (auth_data c) w)
    as [[result|e] w1]; simpl; [|authenticate_unchanged w1].
  destruct (truthy result); [|authenticate_unchanged w1].
  destruct (getitem result "path") as [new_server|e]; simpl;
    [|authenticate_unchanged w1].
  pose proof (the_credentials_world w1) as Hw1.
  destruct (the_credentials w1) as [[[l1 c1]|e] w1']; simpl in *; subst w1';
    [|authenticate_unchanged w1].
  destruct (getitem result "credentials") as [cj|e]; simpl;
    [|authenticate_unchanged w1].
  destruct (getitem cj "userName") as [userName|e]; simpl;
    [|authenticate_unchanged w1].
  destruct (getitem cj "sessionId") as [sessionId|e]; simpl;
    [|authenticate_unchanged w1].
  destruct (getitem cj "database") as [db|e]; simpl;
    [|authenticate_unchanged w1].
  left. eexists. split; [reflexivity|]. split; reflexivity.
Qed.

Lemma authenticate_not_holding w :
  (forall l c, ~ holds w l c) ->
  authenticate urlparse w = (Raise AttributeError, w).
Proof.
  intros Hnot. unfold authenticate. unfold_M. unfold the_credentials at 1.
  destruct (credentials (self w)) as [l|] eqn:Hc; [|done].
  destruct (heap w !! l) as [c|] eqn:Hl; [|done].
  by destruct (Hnot l c).
Qed.

(** The one request of [authenticate]. *)
Lemma authenticate_log w l c u w1 :
  holds w l c ->
  _get_api_url urlparse w = (Return u, w1) ->
  sent (authenticate urlparse w).2
    = (sent w ++ [rpc_request u (JStr "Authenticate") (auth_data c)])%list.
Proof.
  intros Hh Hu.
  rewrite <- (query_request urlparse (JStr "Authenticate") (auth_data c) _ _ _ Hu).
  destruct (authenticate_outcome w l c Hh) as [(c' & _ & Hw & _)|[_ Hw]];
    by rewrite Hw.
Qed.

(** The object of a login that returned one. *)
Lemma authenticate_returned w l w' :
  authenticate urlparse w = (Return (Some l), w') ->
  exists c, holds w' l c /\ password c = JNull.
Proof.
  intros Ha. destruct (holds_dec w) as [(l0 & c0 & Hh)|Hnot].
  - destruct (authenticate_outcome w l0 c0 Hh) as [(c' & Hr & Hw & Hpw)|[Hr _]].
    + rewrite Ha in Hr, Hw. simpl in Hr, Hw. inversion Hr; subst l. subst w'.
      exists c'. split; [|done]. split; [done|]. simpl.
      by apply list_lookup_middle.
    + rewrite Ha in Hr. by destruct (Hr l).
  - by rewrite (authenticate_not_holding w Hnot) in Ha.
Qed.
End AuthenticateOutcomes.

Section AuthenticateProperties.
Context (urlparse : string -> result ParseResult).

(** What a query leaves of the object the client holds. *)
Lemma query_keeps_holding method parameters w l c :
  holds w l c ->
  exists c', holds (_query urlparse method parameters w).2 l c' /\ kept c c'.
Proof.
  intros [Hc Hl].
  destruct (query_query_frame urlparse method parameters w) as (Hself & _ & Hk).
  destruct (Hk _ _ Hl) as (c' & Hl' & Hkept).
  exists c'. split; [|done]. split; [by rewrite Hself|done].
Qed.

(** X5: a login that the server refuses with [InvalidUserException] raises
    the authentication error carrying the username, database and server of
    the credentials held; any other application error of the login
    propagates as it is.  Either way the world is the one the query left. *)
Theorem authenticate_translates_invalid_user w l c f n m s w1 :
  holds w l c ->
  _query urlparse (JStr "Authenticate") (auth_data c) w
    = (Raise (MyGeotabException f n m s), w1) ->
  (eq_str n "InvalidUserException" = true ->
   exists c1, holds w1 l c1 /\
     username c1 = username c /\ database c1 = database c /\
     authenticate urlparse w
       = (Raise (AuthenticationException (username c1) (database c1) (server c1)),
          w1)) /\
  (eq_str n "InvalidUserException" = false ->
   authenticate urlparse w = (Raise (MyGeotabException f n m s), w1)).
Proof.
  intros Hh Hq.
  destruct (query_keeps_holding (JStr "Authenticate") (auth_data c) w l c Hh)
    as (c1 & Hh1 & Hkept).
  rewrite Hq in Hh1. simpl in Hh1.
  split; intros Hn.
  - exists c1. split; [done|]. destruct Hkept as (Hu & _ & Hd & _).
    split; [done|]. split; [done|].
    unfold authenticate. unfold_M. rewrite (the_credentials_holds _ _ _ Hh).
    fold (auth_data c). rewrite Hq, Hn.
    by rewrite (the_credentials_holds _ _ _ Hh1).
  - unfold authenticate. unfold_M. rewrite (the_credentials_holds _ _ _ Hh).
    fold (auth_data c). by rewrite Hq, Hn.
Qed.

(** X6: unless [authenticate] returns the new [Credentials] object, the
    client keeps referring to the object it held, no object is created, and
    that object has its attributes as before (its server possibly
    defaulted). *)
Theorem authenticate_keeps_credentials_unless_returned w l c :
  holds w l c ->
  (forall l', (authenticate urlparse w).1 <> Return (Some l')) ->
  exists c', holds (authenticate urlparse w).2 l c' /\ kept c c' /\
    length (heap (authenticate urlparse w).2) = length (heap w).
Proof.
  intros Hh Hnot.
  destruct (authenticate_outcome urlparse w l c Hh) as [(c' & Hr & _)|[_ Hw]].
  { by destruct (Hnot _ Hr). }
  rewrite Hw.
  destruct (query_keeps_holding (JStr "Authenticate") (auth_data c) w l c Hh)
    as (c1 & Hh1 & Hkept).
  exists c1. split; [done|]. split; [done|].
  by destruct (query_query_frame urlparse (JStr "Authenticate") (auth_data c) w)
    as (_ & Hlen & _).
Qed.

(** X7: whatever the server answers, [authenticate] issues exactly one
    request: method [Authenticate], with the database, username and password
    of the credentials held and [global] true, and no [credentials] key. *)
Theorem authenticate_sends_one_login_request w l c u w1 :
  holds w l c ->
  _get_api_url urlparse w = (Return u, w1) ->
  exists P,
    sent (authenticate urlparse w).2
      = (sent w ++ [rpc_request u (JStr "Authenticate") P])%list /\
    P !! "database" = Some (database c) /\
    P !! "userName" = Some (username c) /\
    P !! "password" = Some (password c) /\
    P !! "global" = Some (JBool true) /\
    P !! "credentials" = None.
Proof.
  intros Hh Hu. exists (auth_data c). split.
  - by apply (authenticate_log urlparse w l c u w1).
  - unfold auth_data. repeat split; by simplify_map_eq.
Qed.

(** X8: the object a successful login installs has no password, so the next
    login from that client, such as the one [call] runs when the session has
    expired, sends a null password. *)
Theorem second_login_sends_null_password w l w' u w1 :
  authenticate urlparse w = (Return (Some l), w') ->
  _get_api_url urlparse w' = (Return u, w1) ->
  exists P,
    sent (authenticate urlparse w').2
      = (sent w' ++ [rpc_request u (JStr "Authenticate") P])%list /\
    P !! "password" = Some JNull.
Proof.
  intros Ha Hu.
  destruct (authenticate_returned urlparse w l w' Ha) as (c & Hh & Hpw).
  exists (auth_data c). split.
  - by apply (authenticate_log urlparse w' l c u w1).
  - unfold auth_data. rewrite Hpw. by simplify_map_eq.
Qed.
End AuthenticateProperties.

Lemma authenticate_translates_invalid_user_witness :
  exists c1,
    holds (_query urlparse_bare (JStr "Authenticate")
             (auth_data (password_credentials (JStr "my.geotab.com")))
             refused_login).2 0 c1 /\
    username c1 = JStr "user@example.com" /\ database c1 = JStr "db" /\
    authenticate urlparse_bare refused_login
      = (Raise (AuthenticationException (username c1) (database c1) (server c1)),
         (_query urlparse_bare (JStr "Authenticate")
            (auth_data (password_credentials (JStr "my.geotab.com")))
            refused_login).2).
Proof.
  apply (proj1 (authenticate_translates_invalid_user urlparse_bare refused_login 0
                  (password_credentials (JStr "my.geotab.com"))
                  (error_record "InvalidUserException" "m" "s")
                  (JStr "InvalidUserException") (JStr "m") (JStr "s")
                  (_query urlparse_bare (JStr "Authenticate")
                     (auth_data (password_credentials (JStr "my.geotab.com")))
                     refused_login).2
                  (conj eq_refl eq_refl)
                  ltac:(vm_compute; reflexivity))).
  reflexivity.
Defined.

Lemma authenticate_keeps_credentials_unless_returned_witness :
  exists c', holds (authenticate urlparse_bare unanswered_login).2 0 c' /\
    kept (password_credentials (JStr "my.geotab.com")) c' /\
    length (heap (authenticate urlparse_bare unanswered_login).2)
      = length (heap unanswered_login).
Proof.
  apply (authenticate_keeps_credentials_unless_returned urlparse_bare
           unanswered_login 0 (password_credentials (JStr "my.geotab.com"))).
  - split; reflexivity.
  - intros l' H. vm_compute in H. discriminate.
Defined.

Lemma authenticate_sends_one_login_request_witness :
  exists P,
    sent (authenticate urlparse_bare accepted_login).2
      = (sent accepted_login ++
         [rpc_request "https://my.geotab.com/apiv1" (JStr "Authenticate") P])%list /\
    P !! "database" = Some (JStr "db") /\
    P !! "userName" = Some (JStr "user@example.com") /\
    P !! "password" = Some (JStr "secret") /\
    P !! "global" = Some (JBool true) /\
    P !! "credentials" = None.
Proof.
  apply (authenticate_sends_one_login_request urlparse_bare accepted_login 0
           (password_credentials (JStr "my.geotab.com"))
           "https://my.geotab.com/apiv1" accepted_login).
  - split; reflexivity.
  - reflexivity.
Defined.

Lemma second_login_sends_null_password_witness :
  exists P,
    sent (authenticate urlparse_bare
            (authenticate urlparse_bare accepted_login).2).2
      = (sent (authenticate urlparse_bare accepted_login).2 ++
         [rpc_request "https://my3.geotab.com/apiv1" (JStr "Authenticate") P])%list /\
    P !! "password" = Some JNull.
Proof.
  apply (second_login_sends_null_password urlparse_bare accepted_login 1
           (authenticate urlparse_bare accepted_login).2
           "https://my3.geotab.com/apiv1"
           (authenticate urlparse_bare accepted_login).2).
  - vm_compute. reflexivity.
  - vm_compute. reflexivity.
Defined.

(** ** The request URL *)

Section UrlProperties.
Context (urlparse : string -> result ParseResult).

(** X9: building the URL is idempotent: once it has been built, building
    it again gives the same URL and changes nothing (the default host, if it
    was needed, is in place after the first time). *)
Theorem get_api_url_idempotent w u w1 :
  _get_api_url urlparse w = (Return u, w1) ->
  _get_api_url urlparse w1 = (Return u, w1).
Proof.
  unfold _get_api_url. unfold_M. intros H.
  destruct (the_credentials w) as [[[l c]|e] w0] eqn:Hc; [|done].
  apply the_credentials_inv in Hc as [-> Hh].
  destruct (truthy (server c)) eqn:Ht; simpl in H.
  - rewrite (the_credentials_holds _ _ _ Hh) in H.
    destruct (server c) as [| | |s| |] eqn:Hs; try done.
    destruct (urlparse s) as [p|e] eqn:Hp; [|done].
    inversion H; subst u w1.
    rewrite (the_credentials_holds _ _ _ Hh), Hs, Ht. simpl.
    by rewrite (the_credentials_holds _ _ _ Hh), Hs, Hp.
  - destruct Hh as [Hself Hl]. unfold store_server in H. rewrite Hl in H.
    simpl in H. unfold the_credentials in H. simpl in H.
    rewrite Hself in H.
    rewrite list_lookup_insert_eq in H by (by eapply lookup_lt_Some).
    simpl in H.
    destruct (urlparse "my.geotab.com") as [p|e] eqn:Hp; [|done].
    inversion H; subst u w1. clear H.
    unfold the_credentials. simpl. rewrite Hself.
    rewrite list_lookup_insert_eq by (by eapply lookup_lt_Some).
    simpl. rewrite Hself.
    rewrite list_lookup_insert_eq by (by eapply lookup_lt_Some).
    simpl. by rewrite Hp.
Qed.

End UrlProperties.

Lemma get_api_url_idempotent_witness :
  _get_api_url urlparse_bare
    (_get_api_url urlparse_bare (session_client JNull [])).2
  = (Return "https://my.geotab.com/apiv1",
     (_get_api_url urlparse_bare (session_client JNull [])).2).
Proof.
  apply (get_api_url_idempotent urlparse_bare (session_client JNull [])).
  reflexivity.
Defined.


(** ** Parameters of the convenience methods *)

Section Wrappers.
Context (urlparse : string -> result ParseResult).

Lemma sent_parameters_lookup c type_name parameters k :
  k <> "typeName" -> k <> "credentials" ->
  sent_parameters c type_name parameters !! k = parameters !! k.
Proof.
  intros H1 H2. unfold sent_parameters, attach_credentials, merge_type_name.
  destruct (_ && _); destruct (truthy type_name);
    rewrite ?lookup_insert_ne by done; done.
Qed.

Lemma sent_parameters_type_name c type_name parameters :
  sent_parameters c type_name parameters !! "typeName"
    = if truthy type_name then Some type_name else parameters !! "typeName".
Proof.
  unfold sent_parameters, attach_credentials, merge_type_name.
  destruct (_ && _); destruct (truthy type_name);
    rewrite ?(lookup_insert_ne _ "credentials") by done;
    by rewrite ?lookup_insert_eq.
Qed.

(** X11: in the request of a [call], a truthy [type_name] argument is what
    goes out under [typeName], replacing a [typeName] keyword; a falsy one
    ([None], the empty string) leaves the keyword's value, or no [typeName]
    at all; every other keyword except [credentials] goes out as given. *)
Theorem call_type_name_takes_precedence
    depth method type_name parameters w l c u w1 :
  is_None method = false ->
  holds w l c ->
  _get_api_url urlparse w = (Return u, w1) ->
  exists P more,
    sent (call urlparse (S depth) method type_name parameters w).2
      = (sent w ++ rpc_request u method P :: more)%list /\
    (truthy type_name = true -> P !! "typeName" = Some type_name) /\
    (truthy type_name = false -> P !! "typeName" = parameters !! "typeName") /\
    (forall k, k <> "typeName" -> k <> "credentials" -> P !! k = parameters !! k).
Proof.
  intros Hm Hh Hu.
  destruct (call_first_request urlparse depth method type_name parameters
              _ _ _ _ _ Hm Hh Hu) as (more & Hsent & _).
  exists (sent_parameters c type_name parameters), more.
  split; [exact Hsent|].
  rewrite sent_parameters_type_name.
  split; [by intros ->|]. split; [by intros ->|].
  intros k H1 H2. by apply sent_parameters_lookup.
Qed.

(** X12: [add], [set] and [remove] send [Add], [Set] and [Remove] with the
    entity under [entity] and a truthy type name under [typeName]. *)
Theorem entity_methods_send_entity depth type_name entity w l c u w1 :
  holds w l c ->
  _get_api_url urlparse w = (Return u, w1) ->
  truthy type_name = true ->
  (exists P more,
     sent (add urlparse (S depth) type_name entity w).2
       = (sent w ++ rpc_request u (JStr "Add") P :: more)%list /\
     P !! "entity" = Some entity /\ P !! "typeName" = Some type_name) /\
  (exists P more,
     sent (set urlparse (S depth) type_name entity w).2
       = (sent w ++ rpc_request u (JStr "Set") P :: more)%list /\
     P !! "entity" = Some entity /\ P !! "typeName" = Some type_name) /\
  (exists P more,
     sent (remove urlparse (S depth) type_name entity w).2
       = (sent w ++ rpc_request u (JStr "Remove") P :: more)%list /\
     P !! "entity" = Some entity /\ P !! "typeName" = Some type_name).
Proof.
  intros Hh Hu Ht.
  assert (forall method, is_None (JStr method) = false ->
            exists P more,
              sent (call urlparse (S depth) (JStr method) type_name
                      {[ "entity" := entity ]} w).2
                = (sent w ++ rpc_request u (JStr method) P :: more)%list /\
              P !! "entity" = Some entity /\ P !! "typeName" = Some type_name)
    as Hcall.
  { intros method Hm.
    destruct (call_first_request urlparse depth (JStr method) type_name
                {[ "entity" := entity ]} _ _ _ _ _ Hm Hh Hu)
      as (more & Hsent & _).
    eexists _, more. split; [exact Hsent|]. split.
    - rewrite sent_parameters_lookup by done. apply lookup_singleton_eq.
    - by rewrite sent_parameters_type_name, Ht. }
  unfold add, set, remove. repeat split; by apply Hcall.
Qed.
End Wrappers.

Lemma call_type_name_takes_precedence_witness :
  exists P more,
    sent (call urlparse_bare 1 (JStr "Get") (JStr "Device")
            {[ "typeName" := JStr "Trip" ]}
            (answered (session_client (JStr "my.geotab.com")))).2
      = (sent (answered (session_client (JStr "my.geotab.com"))) ++
         rpc_request "https://my.geotab.com/apiv1" (JStr "Get") P :: more)%list /\
    P !! "typeName" = Some (JStr "Device").
Proof.
  destruct (call_type_name_takes_precedence urlparse_bare 0 (JStr "Get")
              (JStr "Device") {[ "typeName" := JStr "Trip" ]}
              (answered (session_client (JStr "my.geotab.com"))) 0
              (session_credentials (JStr "my.geotab.com"))
              "https://my.geotab.com/apiv1"
              (answered (session_client (JStr "my.geotab.com"))))
    as (P & more & Hsent & Htrue & _).
  - reflexivity.
  - split; reflexivity.
  - reflexivity.
  - exists P, more. split; [exact Hsent|]. by apply Htrue.
Defined.

Lemma entity_methods_send_entity_witness :
  exists P more,
    sent (add urlparse_bare 1 (JStr "Device") (JObj {[ "name" := JStr "van" ]})
            (answered (session_client (JStr "my.geotab.com")))).2
      = (sent (answered (session_client (JStr "my.geotab.com"))) ++
         rpc_request "https://my.geotab.com/apiv1" (JStr "Add") P :: more)%list /\
    P !! "entity" = Some (JObj {[ "name" := JStr "van" ]}) /\
    P !! "typeName" = Some (JStr "Device").
Proof.
  apply (proj1 (entity_methods_send_entity urlparse_bare 0 (JStr "Device")
                  (JObj {[ "name" := JStr "van" ]})
                  (answered (session_client (JStr "my.geotab.com"))) 0
                  (session_credentials (JStr "my.geotab.com"))
                  "https://my.geotab.com/apiv1"
                  (answered (session_client (JStr "my.geotab.com")))
                  (conj eq_refl eq_refl) eq_refl eq_refl)).
Defined.

(** ** How many requests an operation makes *)

Section Requests.
Context (urlparse : string -> result ParseResult).

Lemma query_sends_at_most_one method parameters w :
  length (sent (_query urlparse method parameters w).2) <= length (sent w) + 1.
Proof.
  destruct (_get_api_url urlparse w) as [[u|e] w1] eqn:Hu.
  - rewrite (query_request urlparse method parameters _ _ _ Hu).
    rewrite length_app. simpl. lia.
  - pose proof (get_api_url_same_transport urlparse w) as (_&_&Hsent&_).
    rewrite Hu in Hsent. simpl in Hsent.
    unfold _query. unfold_M. rewrite Hu. simpl. rewrite Hsent. lia.
Qed.

Lemma authenticate_sends_at_most_one w :
  length (sent (authenticate urlparse w).2) <= length (sent w) + 1.
Proof.
  destruct (holds_dec w) as [(l & c & Hh)|Hnot].
  - pose proof (query_sends_at_most_one (JStr "Authenticate") (auth_data c) w).
    destruct (authenticate_outcome urlparse w l c Hh)
      as [(c' & _ & Hw & _)|[_ Hw]]; by rewrite Hw.
  - rewrite (authenticate_not_holding urlparse w Hnot). simpl. lia.
Qed.

Lemma call_sends_at_most_one_off_zero depth method type_name parameters w :
  _reauthorize_count (self w) <> 0 ->
  length (sent (call urlparse depth method type_name parameters w).2)
    <= length (sent w) + 1.
Proof.
  intros Hcount. destruct depth as [|depth]; [simpl; lia|].
  destruct (is_None method) eqn:Hm.
  { cbn [call]. rewrite Hm. simpl. lia. }
  destruct (holds_dec w) as [(l & c & Hh)|Hnot].
  - rewrite (call_cases urlparse _ _ _ _ _ _ _ Hm Hh).
    pose proof (query_sends_at_most_one method
                  (sent_parameters c type_name parameters) w) as Hle.
    destruct (_query urlparse method _ w) as [[v|e] w1] eqn:Hq; simpl in *.
    + by destruct (is_None v).
    + destruct e; try done.
      rewrite (query_keeps_count urlparse _ _ _ _ _ Hq).
      destruct (_reauthorize_count (self w)); [done|].
      by rewrite andb_false_r.
  - rewrite (call_not_holding urlparse _ _ _ _ _ Hm Hnot). simpl. lia.
Qed.

(** X13: a call makes at most three requests (its own, the login and the
    retry), and at most one when the counter is not 0 on entry. *)
Theorem call_sends_at_most_three depth method type_name parameters w :
  length (sent (call urlparse depth method type_name parameters w).2)
    <= length (sent w) + 3 /\
  (_reauthorize_count (self w) <> 0 ->
   length (sent (call urlparse depth method type_name parameters w).2)
     <= length (sent w) + 1).
Proof.
  split; [|apply call_sends_at_most_one_off_zero].
  destruct depth as [|depth]; [simpl; lia|].
  destruct (is_None method) eqn:Hm.
  { cbn [call]. rewrite Hm. simpl. lia. }
  destruct (holds_dec w) as [(l & c & Hh)|Hnot].
  - rewrite (call_cases urlparse _ _ _ _ _ _ _ Hm Hh).
    pose proof (query_sends_at_most_one method
                  (sent_parameters c type_name parameters) w) as Hle.
    destruct (_query urlparse method _ w) as [[v|e] w1] eqn:Hq; simpl in *.
    + destruct (is_None v); simpl; lia.
    + destruct e as [|f n m s| | | | | | |]; try (simpl; lia).
      destruct (eq_str n "InvalidUserException" && _); [|simpl; lia].
      unfold_M.
      pose proof (authenticate_sends_at_most_one
                    (set_reauthorize_count (_reauthorize_count (self w1) + 1) w1).2)
        as Ha.
      pose proof (authenticate_same_count urlparse
                    (set_reauthorize_count (_reauthorize_count (self w1) + 1) w1).2)
        as Hc.
      destruct (authenticate urlparse _) as [[a|e] w3]; simpl in *; [|lia].
      pose proof (call_sends_at_most_one_off_zero depth method
                    (JObj (sent_parameters c type_name parameters)) ∅ w3) as Hr.
      unfold same_count in Hc. simpl in Hc.
      specialize (Hr ltac:(lia)). lia.
  - rewrite (call_not_holding urlparse _ _ _ _ _ Hm Hnot). simpl. lia.
Qed.
End Requests.

Lemma call_sends_at_most_three_witness :
  length (sent (call urlparse_bare 2 (JStr "Get") (JStr "Device") ∅
                  (set_self (mkAPI (Some 0) 1) expired_session)).2)
    <= length (sent (set_self (mkAPI (Some 0) 1) expired_session)) + 1.
Proof.
  apply (proj2 (call_sends_at_most_three urlparse_bare 2 (JStr "Get")
                  (JStr "Device") ∅ (set_self (mkAPI (Some 0) 1) expired_session))).
  discriminate.
Defined.

(** ** A client from saved credentials *)

Lemma from_credentials_accepts l c w :
  heap w !! l = Some c ->
  is_None (username c) || (is_None (password c) && is_None (session_id c)) = false ->
  (from_credentials (Some l) w).1 = Return tt /\
  holds (from_credentials (Some l) w).2 (length (heap w)) c.
Proof.
  intros Hl Hc. unfold from_credentials, __init__. rewrite Hl.
  destruct (is_None (username c)); [done|].
  destruct (is_None (password c) && is_None (session_id c)); [done|].
  split; [done|]. split; [done|]. simpl. destruct c. by apply list_lookup_middle.
Qed.

(** X14: [from_credentials] fails with the construction error when the
    saved object has no username, or neither password nor session token, and
    changes nothing then; otherwise the new client starts with the counter at
    0 and holds a new object with the five attributes of the saved one, which
    stays where it was. *)
Theorem from_credentials_copies l c w :
  heap w !! l = Some c ->
  let r := from_credentials (Some l) w in
  (is_None (username c) || (is_None (password c) && is_None (session_id c)) = true ->
   is_construction_error r = true /\ r.2 = w) /\
  (is_None (username c) || (is_None (password c) && is_None (session_id c)) = false ->
   r.1 = Return tt /\
   holds r.2 (length (heap w)) c /\
   heap r.2 !! l = Some c /\ l <> length (heap w) /\
   _reauthorize_count (self r.2) = 0).
Proof.
  intros Hl r. unfold r, from_credentials, __init__, is_construction_error.
  rewrite Hl. pose proof (lookup_lt_Some _ _ _ Hl) as Hlt.
  destruct (is_None (username c)); simpl.
  { split; [done|discriminate]. }
  destruct (is_None (password c) && is_None (session_id c)); simpl.
  { split; [done|discriminate]. }
  split; [discriminate|]. intros _. split; [done|].
  split; [|split; [by apply lookup_app_l_Some|split; [lia|done]]].
  split; [done|]. simpl. destruct c. by apply list_lookup_middle.
Qed.

Lemma from_credentials_copies_witness :
  (from_credentials (Some 0) (session_client (JStr "my.geotab.com") [])).1
    = Return tt /\
  holds (from_credentials (Some 0) (session_client (JStr "my.geotab.com") [])).2
    (length (heap (session_client (JStr "my.geotab.com") [])))
    (session_credentials (JStr "my.geotab.com")) /\
  heap (from_credentials (Some 0) (session_client (JStr "my.geotab.com") [])).2 !! 0
    = Some (session_credentials (JStr "my.geotab.com")) /\
  0 <> length (heap (session_client (JStr "my.geotab.com") [])) /\
  _reauthorize_count
    (self (from_credentials (Some 0) (session_client (JStr "my.geotab.com") [])).2)
    = 0.
Proof.
  apply (proj2 (from_credentials_copies 0 (session_credentials (JStr "my.geotab.com"))
                  (session_client (JStr "my.geotab.com") []) eq_refl)).
  reflexivity.
Defined.

(** X15: what the constructor accepts, [from_credentials] accepts again: a
    client just constructed can be rebuilt from the credentials it holds,
    and the rebuilt client holds equal credentials in an object of its
    own. *)
Theorem constructed_client_can_be_rebuilt
    username password database session_id server w0 w :
  __init__ username password database session_id server w0 = (Return tt, w) ->
  exists l c,
    holds w l c /\
    c = mkCredentials username session_id database server password /\
    (from_credentials (Some l) w).1 = Return tt /\
    holds (from_credentials (Some l) w).2 (S l) c.
Proof.
  unfold __init__. intros H.
  destruct (is_None username) eqn:Hu; [done|].
  destruct (is_None password && is_None session_id) eqn:Hps; [done|].
  inversion H; subst w. clear H.
  exists (length (heap w0)), (mkCredentials username session_id database server password).
  assert (holds
            (set_self (mkAPI (Some (length (heap w0))) 0)
               (set_heap (heap w0 ++
                  [Credentials_init username session_id database server
                     (Some password)]) w0))
            (length (heap w0))
            (mkCredentials username session_id database server password)) as Hh.
  { split; [done|]. simpl. by apply list_lookup_middle. }
  split; [exact Hh|]. split; [done|].
  destruct (from_credentials_accepts _ _ _ (proj2 Hh)) as (Hr & Hh').
  { simpl. by rewrite Hu, Hps. }
  split; [done|]. simpl in Hh'. rewrite length_app in Hh'. simpl in Hh'.
  by rewrite Nat.add_1_r in Hh'.
Qed.

Lemma constructed_client_can_be_rebuilt_witness :
  exists l c,
    holds (session_client (JStr "my.geotab.com") []) l c /\
    c = session_credentials (JStr "my.geotab.com") /\
    (from_credentials (Some l) (session_client (JStr "my.geotab.com") [])).1
      = Return tt /\
    holds (from_credentials (Some l) (session_client (JStr "my.geotab.com") [])).2
      (S l) c.
Proof.
  apply (constructed_client_can_be_rebuilt (JStr "user@example.com") JNull
           (JStr "db") (JStr "s1") (JStr "my.geotab.com") (boot [])).
  reflexivity.
Defined.

(** ** When the re-login or the retry fails *)

Section FailedRetry.
Context (urlparse : string -> result ParseResult).

(** X16: when the login that [call] runs after an [InvalidUserException]
    raises, the call raises that exception (the authentication error, say)
    in place of the server's, and the retry is not sent. *)
Theorem call_raises_what_relogin_raises
    depth method type_name parameters w l c f n m s w1 e w3 :
  is_None method = false ->
  holds w l c ->
  _reauthorize_count (self w) = 0 ->
  _query urlparse method (sent_parameters c type_name parameters) w
    = (Raise (MyGeotabException f n m s), w1) ->
  eq_str n "InvalidUserException" = true ->
  authenticate urlparse (set_reauthorize_count 1 w1).2 = (Raise e, w3) ->
  call urlparse (S depth) method type_name parameters w = (Raise e, w3).
Proof.
  intros Hm Hh H0 Hq Hn Ha.
  rewrite (call_cases urlparse _ _ _ _ _ _ _ Hm Hh). rewrite Hq, Hn.
  rewrite (query_keeps_count urlparse _ _ _ _ _ Hq), H0.
  cbn [andb Nat.eqb Nat.add]. unfold_M. by rewrite Ha.
Qed.

(** X17: a call that went into the re-login and raised all the same leaves
    the counter at 1: the automatic re-login stays off until some call
    returns a result. *)
Theorem failed_retry_leaves_counter_at_one
    depth method type_name parameters w l c f n m s w1 e :
  is_None method = false ->
  holds w l c ->
  _reauthorize_count (self w) = 0 ->
  _query urlparse method (sent_parameters c type_name parameters) w
    = (Raise (MyGeotabException f n m s), w1) ->
  eq_str n "InvalidUserException" = true ->
  (call urlparse (S depth) method type_name parameters w).1 = Raise e ->
  _reauthorize_count
    (self (call urlparse (S depth) method type_name parameters w).2) = 1.
Proof.
  intros Hm Hh H0 Hq Hn.
  rewrite (call_cases urlparse _ _ _ _ _ _ _ Hm Hh). rewrite Hq, Hn.
  rewrite (query_keeps_count urlparse _ _ _ _ _ Hq), H0.
  cbn [andb Nat.eqb Nat.add]. unfold_M.
  pose proof (authenticate_same_count urlparse (set_reauthorize_count 1 w1).2)
    as Ha.
  destruct (authenticate urlparse _) as [[a|e'] w3]; unfold same_count in Ha;
    simpl in Ha; [|done].
  intros Hr. destruct depth as [|depth]; [done|].
  rewrite (call_no_retry urlparse depth) in Hr |- * by lia.
  destruct (holds_dec w3) as [(l3 & c3 & Hh3)|Hnot].
  - rewrite (call_cases urlparse _ _ _ _ _ _ _ Hm Hh3) in Hr |- *.
    destruct (_query urlparse method _ w3) as [[v|e3] w4] eqn:Hq3.
    + by destruct (is_None v).
    + pose proof (query_keeps_count urlparse _ _ _ _ _ Hq3) as Hc4.
      destruct e3; simpl; try congruence.
      rewrite Hc4, Ha, andb_false_r. simpl. congruence.
  - by rewrite (call_not_holding urlparse _ _ _ _ _ Hm Hnot).
Qed.
End FailedRetry.

Lemma call_raises_what_relogin_raises_witness :
  (call urlparse_bare 2 (JStr "Get") (JStr "Device") ∅ expired_and_refused).1
    = Raise (AuthenticationException (JStr "user@example.com") (JStr "db")
               (JStr "my.geotab.com")).
Proof.
  pose (P := sent_parameters (session_credentials (JStr "my.geotab.com"))
               (JStr "Device") ∅).
  pose (w1 := (_query urlparse_bare (JStr "Get") P expired_and_refused).2).
  rewrite (call_raises_what_relogin_raises urlparse_bare 1 (JStr "Get")
             (JStr "Device") ∅ expired_and_refused 0
             (session_credentials (JStr "my.geotab.com"))
             (error_record "InvalidUserException" "m" "s")
             (JStr "InvalidUserException") (JStr "m") (JStr "s") w1
             (AuthenticationException (JStr "user@example.com") (JStr "db")
                (JStr "my.geotab.com"))
             (authenticate urlparse_bare (set_reauthorize_count 1 w1).2).2).
  - reflexivity.
  - reflexivity.
  - split; vm_compute; reflexivity.
  - reflexivity.
  - vm_compute. reflexivity.
  - reflexivity.
  - vm_compute. reflexivity.
Defined.

Lemma failed_retry_leaves_counter_at_one_witness :
  _reauthorize_count
    (self (call urlparse_bare 2 (JStr "Get") (JStr "Device") ∅
             expired_twice).2) = 1.
Proof.
  pose (P := sent_parameters (session_credentials (JStr "my.geotab.com"))
               (JStr "Device") ∅).
  apply (failed_retry_leaves_counter_at_one urlparse_bare 1 (JStr "Get")
           (JStr "Device") ∅ expired_twice 0
           (session_credentials (JStr "my.geotab.com"))
           (error_record "InvalidUserException" "m" "s")
           (JStr "InvalidUserException") (JStr "m") (JStr "s")
           (_query urlparse_bare (JStr "Get") P expired_twice).2
           (MyGeotabException (error_record "InvalidUserException" "m" "s")
              (JStr "InvalidUserException") (JStr "m") (JStr "s"))).
  - reflexivity.
  - split; vm_compute; reflexivity.
  - reflexivity.
  - vm_compute. reflexivity.
  - reflexivity.
  - vm_compute. reflexivity.
Defined.

(** ** Every request is a well-formed one *)

#[global] Instance sends_well_formed_preorder : PreOrder sends_well_formed.
Proof.
  split.
  - intros w. exists []. split; [by rewrite app_nil_r|constructor].
  - intros w1 w2 w3 (m1 & H1 & F1) (m2 & H2 & F2). exists (m1 ++ m2)%list.
    split; [by rewrite H2, H1, app_assoc|by apply Forall_app].
Qed.

(** Relations that the query keeps as a whole. *)
Section PreservesFromQuery.
Context (urlparse : string -> result ParseResult).
Context (R : relation World) `{!PreOrder R}.
Hypothesis preserves_query_whole :
  forall method parameters, preserves R (_query urlparse method parameters).
Hypothesis preserves_install : forall c, preserves R (install_credentials c).
Hypothesis preserves_set_count : forall n, preserves R (set_reauthorize_count n).

Lemma preserves_authenticate_from_query : preserves R (authenticate urlparse).
Proof using PreOrder0 preserves_query_whole preserves_install.
  unfold authenticate. pbind; [preserves_tac|intros [l c]].
  ptry.
  - pbind; [apply preserves_query_whole|intros r]. preserves_tac.
  - intros. preserves_tac.
Qed.

Lemma preserves_call_from_query depth method type_name parameters :
  preserves R (call urlparse depth method type_name parameters).
Proof using All.
  revert method type_name parameters.
  induction depth as [|depth IH]; intros method type_name parameters; simpl.
  { preserves_tac. }
  destruct (is_None method); [preserves_tac|].
  pbind; [intros w; reflexivity|intros oc].
  pbind.
  { apply preserves_when; [apply _|].
    pbind; [apply preserves_authenticate_from_query|].
    intros. preserves_tac. }
  intros _. pbind; [preserves_tac|intros [l c]].
  ptry.
  - pbind; [apply preserves_query_whole|intros r]. preserves_tac.
  - intros f nm msg st. pbind; [preserves_tac|intros k].
    destruct (_ && _); [|preserves_tac].
    pbind; [done|intros _].
    pbind; [apply preserves_authenticate_from_query|intros _]. apply IH.
Qed.
End PreservesFromQuery.

Section WellFormed.
Context (urlparse : string -> result ParseResult).

Lemma query_sends_well_formed method parameters :
  preserves sends_well_formed (_query urlparse method parameters).
Proof.
  intros w. destruct (_get_api_url urlparse w) as [[u|e] w1] eqn:Hu.
  - exists [rpc_request u method parameters].
    split; [by apply (query_request urlparse method parameters w u w1)|].
    constructor; [|constructor].
    destruct (get_api_url_shape urlparse _ _ _ Hu) as [host ->].
    by exists host, method, parameters.
  - pose proof (get_api_url_same_transport urlparse w) as (_&_&Hsent&_).
    rewrite Hu in Hsent. simpl in Hsent.
    exists []. split; [|constructor].
    unfold _query. unfold_M. rewrite Hu. simpl. by rewrite Hsent, app_nil_r.
Qed.

Lemma install_credentials_sends_nothing c :
  preserves sends_well_formed (install_credentials c).
Proof. intros w. exists []. split; [simpl; by rewrite app_nil_r|constructor]. Qed.

Lemma set_reauthorize_count_sends_nothing n :
  preserves sends_well_formed (set_reauthorize_count n).
Proof. intros w. exists []. split; [simpl; by rewrite app_nil_r|constructor]. Qed.

(** X18: whatever operation runs, in whatever state and against whatever
    server, every request it adds to the log is a POST envelope
    [{id: -1, method, params}] with the JSON content type, following
    redirects, to an [https] URL that ends in [/apiv1]; requests made before
    stay in the log. *)
Theorem operations_send_well_formed_requests depth o w :
  exists more,
    sent (run urlparse depth o w).2 = (sent w ++ more)%list /\
    forall r, r ∈ more ->
      exists host method parameters,
        url r = "https://" +:+ host +:+ "/apiv1" /\
        data r = JObj {[ "id" := JNum (-1); "method" := method;
                         "params" := JObj parameters ]} /\
        headers r = [("Content-type", "application/json; charset=UTF-8")] /\
        allow_redirects r = true.
Proof.
  assert (preserves sends_well_formed (run urlparse depth o)) as Hp.
  { destruct o; cbn [run]; unfold multi_call, get, add, set, remove;
      try (apply preserves_call_from_query;
           [apply _|apply query_sends_well_formed
           |apply install_credentials_sends_nothing
           |apply set_reauthorize_count_sends_nothing]).
    pbind; [|intros; preserves_tac].
    apply preserves_authenticate_from_query;
      [apply _|apply query_sends_well_formed
      |apply install_credentials_sends_nothing]. }
  destruct (Hp w) as (more & Hsent & Hall).
  exists more. split; [exact Hsent|].
  intros r Hr. rewrite Forall_forall in Hall.
  destruct (Hall r Hr) as (host & method & parameters & ->).
  by exists host, method, parameters.
Qed.
End WellFormed.

Lemma operations_send_well_formed_requests_witness :
  match head (sent (run urlparse_bare 2 (op_get (JStr "Device") ∅)
                      expired_session).2) with
  | Some r =>
      exists host method parameters,
        url r = "https://" +:+ host +:+ "/apiv1" /\
        data r = JObj {[ "id" := JNum (-1); "method" := method;
                         "params" := JObj parameters ]} /\
        headers r = [("Content-type", "application/json; charset=UTF-8")] /\
        allow_redirects r = true
  | None => False
  end.
Proof.
  destruct (operations_send_well_formed_requests urlparse_bare 2
              (op_get (JStr "Device") ∅) expired_session)
    as (more & Hsent & Hall).
  change (sent expired_session ++ more)%list with more in Hsent.
  destruct (sent (run urlparse_bare 2 (op_get (JStr "Device") ∅)
                    expired_session).2) as [|r rest] eqn:E.
  - vm_compute in E. discriminate.
  - simpl. apply Hall. rewrite <- Hsent. by left.
Defined.
